(** * PromptBuilderService: a shallow embedding and its properties

    The embedding follows
    [src/NodeST/nodest/services/prompt-builder-service.ts].  JavaScript
    numbers are modelled as [Z] (every index, depth and position the service
    computes with is an integer), optional fields as [option], strings as
    [string], and the plain objects pushed into the history as one record
    carrying every field the service reads or writes. *)

From Stdlib Require Import Ascii String.
From stdpp Require Import gmap strings list.

Open Scope string_scope.
Open Scope list_scope.
Open Scope Z_scope.

(** ** JavaScript idioms *)

Module JS.

(** [o || d] on an optional string: [undefined] and the empty string are falsy. *)
Definition or_str (o : option string) (d : string) : string :=
  match o with
  | Some s => if String.eqb s EmptyString then d else s
  | None => d
  end.

(** [o || d] on an optional number: [undefined] and [0] are falsy. *)
Definition or_num (o : option Z) (d : Z) : Z :=
  match o with
  | Some n => if n =? 0 then d else n
  | None => d
  end.

(** [o || d] on an optional boolean. *)
Definition or_bool (o : option bool) (d : bool) : bool :=
  match o with
  | Some true => true
  | _ => d
  end.

(** [o || d] on an optional array: every array is truthy. *)
Definition or_list {A} (o : option (list A)) (d : list A) : list A :=
  match o with
  | Some l => l
  | None => d
  end.

(** Truthiness of an optional string, as tested by [if (userMessage)]. *)
Definition truthy_str (o : option string) : bool :=
  match o with
  | Some s => negb (String.eqb s EmptyString)
  | None => false
  end.

(** [Array.prototype.findIndex]: the first index whose element satisfies
    the predicate, [-1] when there is none. *)
Fixpoint findIndex {A} (p : A -> bool) (l : list A) : Z :=
  match l with
  | [] => -1
  | x :: rest =>
      if p x then 0
      else let r := findIndex p rest in
           if r =? -1 then -1 else r + 1
  end.

(** [l.slice(start)]: a negative [start] counts from the end, and both
    ends are clamped to the array. *)
Definition slice_from {A} (start : Z) (l : list A) : list A :=
  let len := Z.of_nat (length l) in
  let k := if start <? 0 then Z.max (len + start) 0 else Z.min start len in
  drop (Z.to_nat k) l.

(** [l.splice(start, 0, x)]: insert [x] at [start], with the same
    clamping as [slice]. *)
Definition splice_insert {A} (start : Z) (x : A) (l : list A) : list A :=
  let len := Z.of_nat (length l) in
  let k := if start <? 0 then Z.max (len + start) 0 else Z.min start len in
  take (Z.to_nat k) l ++ x :: drop (Z.to_nat k) l.

(** [l.filter(Boolean)] on a list whose elements are objects or [null]. *)
Fixpoint filter_Boolean {A} (l : list (option A)) : list A :=
  match l with
  | [] => []
  | Some x :: rest => x :: filter_Boolean rest
  | None :: rest => filter_Boolean rest
  end.

(** [l.join(sep)]. *)
Fixpoint join (sep : string) (l : list string) : string :=
  match l with
  | [] => EmptyString
  | [s] => s
  | s :: rest => String.append s (String.append sep (join sep rest))
  end.

(** White space removed by [String.prototype.trim], within ASCII: tab,
    line feed, vertical tab, form feed, carriage return and space. *)
Definition is_space (c : ascii) : bool :=
  let n := nat_of_ascii c in
  ((9 <=? n)%nat && (n <=? 13)%nat) || (n =? 32)%nat.

Fixpoint all_space (s : string) : bool :=
  match s with
  | EmptyString => true
  | String c rest => is_space c && all_space rest
  end.

(** The test of the final [filter]: the trimmed text is not empty. *)
Definition trim_nonempty (s : string) : bool := negb (all_space s).

End JS.

(** ** Data model *)

(** [interface DEntry] *)
Record DEntry := mkDEntry {
  d_name : string;
  d_content : string;
  d_role : option string;
  d_position : option Z;
  d_depth : option Z;
  d_constant : option bool;
  d_key : option (list string);
  d_identifier : option string
}.

(** [interface RFrameworkEntry] *)
Record RFrameworkEntry := mkRFrameworkEntry {
  r_name : string;
  r_content : string;
  r_role : option string;
  r_identifier : option string;
  r_isChatHistory : option bool
}.

(** [interface MessagePart], the [{ text }] objects of a [parts] array. *)
Record MessagePart := mkPart { text : string }.

(** Modelled from the spec: the declaration of [ChatMessage] lives in
    [shared/types], which is not among the sources.  The record has the
    fields [processHistory] reads: the role, the optional fragments, the
    optional timestamp and the flag of a turn produced by an earlier
    injection ([isAnnotation] in the spec, [is_d_entry] in the code). *)
Record ChatMessage := mkChatMessage {
  c_role : string;
  c_parts : option (list MessagePart);
  c_timestamp : option Z;
  c_is_d_entry : bool
}.

(** The objects held by a history array ([any[]] in the source): the turns
    returned by [processHistory] and the turns built from D-entries.  A field
    that an object literal does not set is [None] (or [false] for the two
    flags, which are only ever tested for truthiness). *)
Record HistoryMsg := mkHistoryMsg {
  h_role : string;
  h_parts : list MessagePart;
  h_timestamp : option Z;
  h_is_d_entry : bool;
  h_is_author_note : bool;
  h_depth : option Z;
  h_position : option Z;
  h_constant : option bool;
  h_identifier : option string;
  h_name : option string
}.

(** An element of the [parts] array of an output message: a text fragment
    for a framework block, a turn for the chat-history container. *)
Inductive Part :=
| TextPart (p : MessagePart)
| HistoryPart (h : HistoryMsg).

(** The objects of the array returned by [buildPrompt]. *)
Record Message := mkMessage {
  m_name : string;
  m_role : string;
  m_parts : list Part;
  m_identifier : option string
}.

(** [interface PromptBuilderOptions] *)
Record PromptBuilderOptions := mkOptions {
  rFramework : list RFrameworkEntry;
  dEntries : option (list DEntry);
  chatHistory : option (list ChatMessage);
  userMessage : option string;
  maxHistoryLength : option Z
}.

(** ** createDEntry *)

Definition createDEntry (options : DEntry) : DEntry :=
  {| d_name := d_name options;
     d_content := d_content options;
     d_role := Some (JS.or_str (d_role options) "user");
     d_position := Some (JS.or_num (d_position options) 4);
     d_depth := Some (JS.or_num (d_depth options) 1);
     d_constant := Some (JS.or_bool (d_constant options) true);
     d_key := Some (JS.or_list (d_key options) []);
     d_identifier := d_identifier options |}.

(** ** createRFrameworkEntry and createChatHistoryContainer *)

Definition createRFrameworkEntry (options : RFrameworkEntry) : RFrameworkEntry :=
  {| r_name := r_name options;
     r_content := r_content options;
     r_role := Some (JS.or_str (r_role options) "user");
     r_identifier := r_identifier options;
     r_isChatHistory := Some (JS.or_bool (r_isChatHistory options) false) |}.

Definition createChatHistoryContainer (identifier : option string) : RFrameworkEntry :=
  {| r_name := "Chat History";
     r_content := EmptyString;
     r_role := Some "system";
     r_identifier := Some (default "chatHistory" identifier);
     r_isChatHistory := Some true |}.

(** ** processHistory *)

Definition processHistory_step (msg : ChatMessage) : option HistoryMsg :=
  if c_is_d_entry msg then None
  else
    let role :=
      if String.eqb (c_role msg) "assistant" || String.eqb (c_role msg) "model"
      then "model" else "user" in
    Some {| h_role := role;
            h_parts := JS.or_list (c_parts msg) [ {| text := EmptyString |} ];
            h_timestamp := c_timestamp msg;
            h_is_d_entry := false;
            h_is_author_note := false;
            h_depth := None;
            h_position := None;
            h_constant := None;
            h_identifier := None;
            h_name := None |}.

Definition processHistory (history : list ChatMessage) : list HistoryMsg :=
  JS.filter_Boolean (List.map processHistory_step history).

(** ** insertDEntriesToHistory *)

(** The turn pushed for a [position === 4] (or position-less) entry. *)
Definition position4Turn (entry : DEntry) : HistoryMsg :=
  {| h_role := JS.or_str (d_role entry) "user";
     h_parts := [ {| text := d_content entry |} ];
     h_timestamp := None;
     h_is_d_entry := true;
     h_is_author_note := false;
     h_depth := d_depth entry;
     h_position := None;
     h_constant := d_constant entry;
     h_identifier := d_identifier entry;
     h_name := Some (d_name entry) |}.

(** The turn built for an entry with any other position. *)
Definition otherPositionTurn (entry : DEntry) : HistoryMsg :=
  {| h_role := JS.or_str (d_role entry) "user";
     h_parts := [ {| text := d_content entry |} ];
     h_timestamp := None;
     h_is_d_entry := true;
     h_is_author_note := false;
     h_depth := None;
     h_position := d_position entry;
     h_constant := d_constant entry;
     h_identifier := d_identifier entry;
     h_name := Some (d_name entry) |}.

(** [entry.position === 4 || entry.position === undefined] *)
Definition isPosition4 (entry : DEntry) : bool :=
  match d_position entry with
  | Some p => p =? 4
  | None => true
  end.

(** [entry.position !== undefined && entry.position !== 4] *)
Definition isOtherPosition (entry : DEntry) : bool :=
  match d_position entry with
  | Some p => negb (p =? 4)
  | None => false
  end.

(** The key under which the reducer files an entry: [entry.depth || 0]. *)
Definition depthKey (entry : DEntry) : Z := JS.or_num (d_depth entry) 0.

(** The body of the reducer: create the group if it is missing, then push. *)
Definition position4Step (acc : gmap Z (list HistoryMsg)) (entry : DEntry)
  : gmap Z (list HistoryMsg) :=
  let depth := depthKey entry in
  let acc1 := match acc !! depth with
              | Some _ => acc
              | None => <[depth := []]> acc
              end in
  alter (fun group => group ++ [position4Turn entry]) depth acc1.

Definition position4Entries (dEntries : list DEntry) : gmap Z (list HistoryMsg) :=
  fold_left position4Step (List.filter isPosition4 dEntries) ∅.

Definition otherPositionEntries (dEntries : list DEntry) : list HistoryMsg :=
  List.map otherPositionTurn (List.filter isOtherPosition dEntries).

(** [msg.role === "user" && msg.parts?.[0]?.text === baseMessage] *)
Definition isBaseMessage (baseMessage : string) (msg : HistoryMsg) : bool :=
  String.eqb (h_role msg) "user" &&
  match h_parts msg with
  | p :: _ => String.eqb (text p) baseMessage
  | [] => false
  end.

Definition baseMessageIndex (chatMessages : list HistoryMsg) (baseMessage : string) : Z :=
  Z.of_nat (length chatMessages) - 1
  - JS.findIndex (isBaseMessage baseMessage) (rev chatMessages).

Definition effectiveBaseIndex (chatMessages : list HistoryMsg) (baseMessage : string) : Z :=
  let bmi := baseMessageIndex chatMessages baseMessage in
  if negb (bmi =? -1) then bmi else Z.of_nat (length chatMessages) - 1.

(** Step 5.1: the loop over [chatMessages], from index [i] on, with
    [finalHistory] as the array being pushed to. *)
Fixpoint depthLoop (groups : gmap Z (list HistoryMsg)) (base : Z) (i : Z)
    (chatMessages : list HistoryMsg) (finalHistory : list HistoryMsg)
  : list HistoryMsg :=
  match chatMessages with
  | [] => finalHistory
  | msg :: rest =>
      let depthFromBase := base - i in
      let fh1 := match groups !! depthFromBase with
                 | Some group => finalHistory ++ group
                 | None => finalHistory
                 end in
      let fh2 := fh1 ++ [msg] in
      let fh3 := if i =? base
                 then match groups !! 0 with
                      | Some group => fh2 ++ group
                      | None => fh2
                      end
                 else fh2 in
      depthLoop groups base (i + 1) rest fh3
  end.

(** [e.position === n] on the turns of [otherPositionEntries]. *)
Definition hasPosition (n : Z) (e : HistoryMsg) : bool :=
  match h_position e with
  | Some p => p =? n
  | None => false
  end.

(** The first loop of step 5.2: items taken from the last to the first, each
    spliced in at [authorNoteIndex]. *)
Definition insertBeforeLoop (authorNoteIndex : Z) (position2Items : list HistoryMsg)
    (finalHistory : list HistoryMsg) : list HistoryMsg :=
  fold_left (fun fh item => JS.splice_insert authorNoteIndex item fh)
            (rev position2Items) finalHistory.

(** The second loop of step 5.2: the item of index [i] is spliced in at
    [authorNoteIndex + 1 + i]. *)
Fixpoint insertAfterLoop (authorNoteIndex : Z) (i : Z) (position3Items : list HistoryMsg)
    (finalHistory : list HistoryMsg) : list HistoryMsg :=
  match position3Items with
  | [] => finalHistory
  | item :: rest =>
      insertAfterLoop authorNoteIndex (i + 1) rest
        (JS.splice_insert (authorNoteIndex + 1 + i) item finalHistory)
  end.

Definition anchorPass (others : list HistoryMsg) (finalHistory : list HistoryMsg)
  : list HistoryMsg :=
  let authorNoteIndex := JS.findIndex h_is_author_note finalHistory in
  if negb (authorNoteIndex =? -1) then
    let position2Items := List.filter (hasPosition 2) others in
    let position3Items := List.filter (hasPosition 3) others in
    insertAfterLoop authorNoteIndex 0 position3Items
      (insertBeforeLoop authorNoteIndex position2Items finalHistory)
  else finalHistory.

Definition insertDEntriesToHistory (history : list HistoryMsg) (dEntries : list DEntry)
    (baseMessage : string) : list HistoryMsg :=
  if (length dEntries =? 0)%nat || (length history =? 0)%nat then history
  else
    let chatMessages := List.filter (fun msg => negb (h_is_d_entry msg)) history in
    let base := effectiveBaseIndex chatMessages baseMessage in
    let finalHistory := depthLoop (position4Entries dEntries) base 0 chatMessages [] in
    anchorPass (otherPositionEntries dEntries) finalHistory.

(** ** buildPrompt *)

(** The container pushed for an entry with [isChatHistory]. *)
Definition containerBlock (entry : RFrameworkEntry) : Message :=
  {| m_name := r_name entry;
     m_role := JS.or_str (r_role entry) "system";
     m_parts := [];
     m_identifier := r_identifier entry |}.

(** The block pushed for any other entry. *)
Definition staticBlock (entry : RFrameworkEntry) : Message :=
  {| m_name := r_name entry;
     m_role := JS.or_str (r_role entry) "user";
     m_parts := [ TextPart {| text := r_content entry |} ];
     m_identifier := r_identifier entry |}.

(** The body of [rFramework.forEach], on the pair of the [messages] array
    and [chatHistoryIndex]. *)
Definition frameworkStep (st : list Message * Z) (entry : RFrameworkEntry)
  : list Message * Z :=
  let '(messages, chatHistoryIndex) := st in
  if JS.or_bool (r_isChatHistory entry) false then
    (messages ++ [containerBlock entry], Z.of_nat (length messages))
  else
    (messages ++ [staticBlock entry], chatHistoryIndex).

(** The container appended when the framework declares none. *)
Definition defaultContainer : Message :=
  {| m_name := "Chat History";
     m_role := "system";
     m_parts := [];
     m_identifier := Some "chatHistory" |}.

(** The turn pushed for the new user message. *)
Definition userTurn (userMessage : string) : HistoryMsg :=
  {| h_role := "user";
     h_parts := [ {| text := userMessage |} ];
     h_timestamp := None;
     h_is_d_entry := false;
     h_is_author_note := false;
     h_depth := None;
     h_position := None;
     h_constant := None;
     h_identifier := None;
     h_name := None |}.

(** Lines 98 to 109: trim, convert, and push the new user message. *)
Definition normalizedHistory (chatHistory : list ChatMessage)
    (userMessage : option string) (maxHistoryLength : Z) : list HistoryMsg :=
  let trimmedHistory := JS.slice_from (- maxHistoryLength) chatHistory in
  let processedHistory := processHistory trimmedHistory in
  if JS.truthy_str userMessage
  then processedHistory ++ [userTurn (JS.or_str userMessage EmptyString)]
  else processedHistory.

(** [messages[chatHistoryIndex].parts = historyWithDEntries] *)
Definition setParts (chatHistoryIndex : Z) (historyWithDEntries : list HistoryMsg)
    (messages : list Message) : list Message :=
  alter (fun m => {| m_name := m_name m;
                     m_role := m_role m;
                     m_parts := List.map HistoryPart historyWithDEntries;
                     m_identifier := m_identifier m |})
        (Z.to_nat chatHistoryIndex) messages.

Definition buildPrompt (options : PromptBuilderOptions) : list Message :=
  let dEntries := JS.or_list (dEntries options) [] in
  let chatHistory := JS.or_list (chatHistory options) [] in
  let userMessage := userMessage options in
  let maxHistoryLength := default 15 (maxHistoryLength options) in
  let '(messages, chatHistoryIndex) :=
    fold_left frameworkStep (rFramework options) ([], -1) in
  let '(messages, chatHistoryIndex) :=
    if (chatHistoryIndex =? -1) &&
       ((0 <? length chatHistory)%nat || JS.truthy_str userMessage)
    then (messages ++ [defaultContainer], Z.of_nat (length messages))
    else (messages, chatHistoryIndex) in
  if negb (chatHistoryIndex =? -1) then
    let processedHistory := normalizedHistory chatHistory userMessage maxHistoryLength in
    let historyWithDEntries :=
      insertDEntriesToHistory processedHistory dEntries (JS.or_str userMessage EmptyString) in
    setParts chatHistoryIndex historyWithDEntries messages
  else messages.

(** ** messagesToText *)

(** [Array.isArray] on a value the model holds as a list. *)
Definition Array_isArray {A} (parts : list A) : bool := true.

(** [part.text], or the empty string: a turn object has no [text] property. *)
Definition partText (part : Part) : string :=
  match part with
  | TextPart p => text p
  | HistoryPart _ => EmptyString
  end.

(** The callback of the inner [map] of the chat-history branch. *)
Definition historyLine (historyMsg : Part) : string :=
  match historyMsg with
  | HistoryPart h =>
      let prefix := if String.eqb (h_role h) "user" then "用户: " else "AI: " in
      let text := match h_parts h with
                  | p :: _ => text p
                  | [] => EmptyString
                  end in
      String.append prefix text
  | TextPart _ => "AI: "
  end.

(** The callback of the outer [map]: the three tests in the order of the
    source. *)
Definition messageText (msg : Message) : string :=
  if Array_isArray (m_parts msg) then
    JS.join (String "010" EmptyString) (List.map partText (m_parts msg))
  else if match m_parts msg with TextPart _ :: _ => true | _ => false end then
    match m_parts msg with TextPart p :: _ => text p | _ => EmptyString end
  else if String.eqb (m_name msg) "Chat History" && Array_isArray (m_parts msg) then
    JS.join (String "010" (String "010" EmptyString)) (List.map historyLine (m_parts msg))
  else EmptyString.

Definition messagesToText (messages : list Message) : string :=
  JS.join (String "010" (String "010" EmptyString))
    (List.filter JS.trim_nonempty (List.map messageText messages)).

(** ** Specification-level views of the loops *)

(** The turns filed under key [k], in the order of the entries. *)
Definition groupOf (k : Z) (dEntries : list DEntry) : list HistoryMsg :=
  List.map position4Turn
    (List.filter (fun e => depthKey e =? k) (List.filter isPosition4 dEntries)).

Definition emitAt (groups : gmap Z (list HistoryMsg)) (base i : Z) (msg : HistoryMsg)
  : list HistoryMsg :=
  default [] (groups !! (base - i)) ++ [msg] ++
  (if i =? base then default [] (groups !! 0) else []).

Fixpoint walk (groups : gmap Z (list HistoryMsg)) (base i : Z)
    (chatMessages : list HistoryMsg) : list HistoryMsg :=
  match chatMessages with
  | [] => []
  | msg :: rest => emitAt groups base i msg ++ walk groups base (i + 1) rest
  end.

(** [history.filter(msg => !msg.is_d_entry)] *)
Definition stripDEntries (history : list HistoryMsg) : list HistoryMsg :=
  List.filter (fun msg => negb (h_is_d_entry msg)) history.

Definition flagged (t : HistoryMsg) : Prop := h_is_d_entry t = true.


(** The counts used to state slot uniqueness.  A framework block is pushed
    with exactly one text fragment; a container is pushed with [parts: []]
    and later assigned the array of turns.  The shape of [parts] therefore
    tells the two apart in the output. *)
Definition isSlotBlock (m : Message) : bool :=
  match m_parts m with
  | [TextPart _] => false
  | _ => true
  end.

Definition countSlots (messages : list Message) : nat :=
  length (List.filter isSlotBlock messages).

(** [entry.isChatHistory], as tested by the [if] of the [forEach] body. *)
Definition isContainerEntry (entry : RFrameworkEntry) : bool :=
  JS.or_bool (r_isChatHistory entry) false.

Definition countContainerEntries (framework : list RFrameworkEntry) : nat :=
  length (List.filter isContainerEntry framework).

(** The test guarding the appended container:
    [chatHistory.length > 0 || userMessage]. *)
Definition hasConversation (options : PromptBuilderOptions) : bool :=
  (0 <? length (JS.or_list (chatHistory options) []))%nat
  || JS.truthy_str (userMessage options).

(** ** Outcomes *)

(** A call either returns a value or throws.  The service has no [throw]
    statement and applies no operation that raises on a value of the declared
    input types, so every call of [buildPrompt] returns. *)
Inductive Error :=
| ValidationError (field : string).

Inductive Outcome (A : Type) :=
| Returned (value : A)
| Thrown (error : Error).

Arguments Returned {A} value.
Arguments Thrown {A} error.

Definition buildPrompt_outcome (options : PromptBuilderOptions)
  : Outcome (list Message) :=
  Returned (buildPrompt options).

(** [0 <= position <= 4], or no position at all. *)
Definition positionInRange (entry : DEntry) : bool :=
  match d_position entry with
  | Some p => (0 <=? p) && (p <=? 4)
  | None => true
  end.

Definition withoutOutOfRange (options : PromptBuilderOptions) : PromptBuilderOptions :=
  {| rFramework := rFramework options;
     dEntries := Some (List.filter positionInRange (JS.or_list (dEntries options) []));
     chatHistory := chatHistory options;
     userMessage := userMessage options;
     maxHistoryLength := maxHistoryLength options |}.

(** ** Sample data *)

Module Sample.

Definition modelTurn (s : string) : HistoryMsg :=
  {| h_role := "model";
     h_parts := [ {| text := s |} ];
     h_timestamp := None;
     h_is_d_entry := false;
     h_is_author_note := false;
     h_depth := None;
     h_position := None;
     h_constant := None;
     h_identifier := None;
     h_name := None |}.

Definition anchorTurn (s : string) : HistoryMsg :=
  {| h_role := "model";
     h_parts := [ {| text := s |} ];
     h_timestamp := None;
     h_is_d_entry := false;
     h_is_author_note := true;
     h_depth := None;
     h_position := None;
     h_constant := None;
     h_identifier := None;
     h_name := None |}.

Definition h0 : HistoryMsg := userTurn "h0".
Definition h1 : HistoryMsg := modelTurn "h1".
Definition h2 : HistoryMsg := userTurn "h2".
Definition note : HistoryMsg := anchorTurn "author note".

(** An entry with the given position and depth. *)
Definition entry (n : string) (position depth : option Z) : DEntry :=
  {| d_name := n;
     d_content := n;
     d_role := None;
     d_position := position;
     d_depth := depth;
     d_constant := None;
     d_key := None;
     d_identifier := None |}.

Definition depth0 : DEntry := entry "d0" (Some 4) (Some 0).
Definition depth1 : DEntry := entry "d1" (Some 4) (Some 1).
Definition noDepth : DEntry := entry "nd" (Some 4) None.
Definition pos2 : DEntry := entry "p2" (Some 2) None.
Definition pos3 : DEntry := entry "p3" (Some 3) None.
Definition pos7 : DEntry := entry "p7" (Some 7) None.

Definition rawTurn (role s : string) (is_d_entry : bool) : ChatMessage :=
  {| c_role := role;
     c_parts := Some [ {| text := s |} ];
     c_timestamp := None;
     c_is_d_entry := is_d_entry |}.

Definition staticEntry (s : string) : RFrameworkEntry :=
  {| r_name := s;
     r_content := s;
     r_role := None;
     r_identifier := None;
     r_isChatHistory := None |}.

Definition containerEntry : RFrameworkEntry := createChatHistoryContainer None.

(** No framework, no entries, no history, no message. *)
Definition noInput : PromptBuilderOptions :=
  {| rFramework := [];
     dEntries := None;
     chatHistory := None;
     userMessage := None;
     maxHistoryLength := None |}.

(** A framework that flags two entries as containers. *)
Definition twoContainers : PromptBuilderOptions :=
  {| rFramework := [containerEntry; staticEntry "instructions"; containerEntry];
     dEntries := None;
     chatHistory := None;
     userMessage := None;
     maxHistoryLength := None |}.

(** A framework with a container, two raw turns and a new message. *)
Definition chat (entries : list DEntry) : PromptBuilderOptions :=
  {| rFramework := [staticEntry "instructions"; containerEntry];
     dEntries := Some entries;
     chatHistory := Some [rawTurn "user" "hi" false; rawTurn "assistant" "hello" false];
     userMessage := Some "how are you";
     maxHistoryLength := None |}.

End Sample.

(** The object pushed by the [forEach] body for one framework entry. *)
Definition frameworkBlock (entry : RFrameworkEntry) : Message :=
  if isContainerEntry entry then containerBlock entry else staticBlock entry.

(** A turn that is neither flagged as injected nor marked as the anchor. *)
Definition plainTurn (m : HistoryMsg) : Prop :=
  h_is_d_entry m = false /\ h_is_author_note m = false.

(** ** Views of the output of [buildPrompt] *)

(** The index of the last framework entry with [isChatHistory], the one
    whose index [chatHistoryIndex] holds when the [forEach] ends. *)
Fixpoint lastContainerIndex (framework : list RFrameworkEntry) : option nat :=
  match framework with
  | [] => None
  | entry :: rest =>
      match lastContainerIndex rest with
      | Some i => Some (S i)
      | None => if isContainerEntry entry then Some 0%nat else None
      end
  end.

(** The [messages] array before the conversation is stored in it. *)
Definition shellOf (options : PromptBuilderOptions) : list Message :=
  List.map frameworkBlock (rFramework options)
  ++ (if (countContainerEntries (rFramework options) =? 0)%nat
         && hasConversation options
      then [defaultContainer] else []).

(** The value of [chatHistoryIndex] at the test of step 2, [None] for -1. *)
Definition slotIndex (options : PromptBuilderOptions) : option nat :=
  match lastContainerIndex (rFramework options) with
  | Some i => Some i
  | None => if hasConversation options
            then Some (length (rFramework options)) else None
  end.

(** [historyWithDEntries] *)
Definition slotContent (options : PromptBuilderOptions) : list HistoryMsg :=
  insertDEntriesToHistory
    (normalizedHistory (JS.or_list (chatHistory options) [])
                       (userMessage options)
                       (default 15 (maxHistoryLength options)))
    (JS.or_list (dEntries options) [])
    (JS.or_str (userMessage options) EmptyString).

(** A block after [parts] has been assigned the turns. *)
Definition filledBlock (turns : list HistoryMsg) (m : Message) : Message :=
  {| m_name := m_name m;
     m_role := m_role m;
     m_parts := List.map HistoryPart turns;
     m_identifier := m_identifier m |}.

(** The options with the list of entries replaced. *)
Definition withEntries (entries : list DEntry) (options : PromptBuilderOptions)
  : PromptBuilderOptions :=
  {| rFramework := rFramework options;
     dEntries := Some entries;
     chatHistory := chatHistory options;
     userMessage := userMessage options;
     maxHistoryLength := maxHistoryLength options |}.

(** The options with the framework replaced. *)
Definition withFramework (framework : list RFrameworkEntry)
    (options : PromptBuilderOptions) : PromptBuilderOptions :=
  {| rFramework := framework;
     dEntries := dEntries options;
     chatHistory := chatHistory options;
     userMessage := userMessage options;
     maxHistoryLength := maxHistoryLength options |}.


(** A container entry with a non-empty role.  The factory defaults a missing
    role to "user", the composer defaults the role of a container to
    "system". *)
Definition roleGivenIfContainer (e : RFrameworkEntry) : Prop :=
  isContainerEntry e = true -> JS.truthy_str (r_role e) = true.
(** * Properties *)

(** ** The groups of [position4Entries] *)


Lemma position4Step_lookup acc e k :
  position4Step acc e !! k =
  if depthKey e =? k
  then Some (default [] (acc !! k) ++ [position4Turn e])
  else acc !! k.
Proof.
  unfold position4Step.
  destruct (Z.eqb_spec (depthKey e) k) as [->|Hne].
  - destruct (acc !! k) as [g|] eqn:Hk.
    + rewrite lookup_alter_eq, Hk. reflexivity.
    + rewrite lookup_alter_eq, lookup_insert_eq. reflexivity.
  - rewrite lookup_alter_ne by assumption.
    destruct (acc !! depthKey e); [reflexivity|].
    rewrite lookup_insert_ne by assumption. reflexivity.
Qed.

Lemma fold_position4Step_lookup es acc k :
  fold_left position4Step es acc !! k =
  let g := List.map position4Turn (List.filter (fun e => depthKey e =? k) es) in
  match acc !! k with
  | Some a => Some (a ++ g)
  | None => match g with [] => None | _ => Some g end
  end.
Proof.
  revert acc. induction es as [|e es IH]; intros acc; simpl.
  - destruct (acc !! k); [rewrite app_nil_r|]; reflexivity.
  - rewrite IH, position4Step_lookup. simpl.
    destruct (depthKey e =? k); simpl.
    + destruct (acc !! k); simpl; [rewrite <- app_assoc|]; reflexivity.
    + reflexivity.
Qed.

Lemma position4Entries_lookup ds k :
  position4Entries ds !! k =
  match groupOf k ds with [] => None | g => Some g end.
Proof.
  unfold position4Entries, groupOf.
  rewrite fold_position4Step_lookup, lookup_empty. cbv zeta.
  destruct (List.map _ _); reflexivity.
Qed.

Lemma position4Entries_Some ds k g :
  position4Entries ds !! k = Some g -> g = groupOf k ds /\ g <> [].
Proof.
  rewrite position4Entries_lookup.
  destruct (groupOf k ds) eqn:E; [discriminate|].
  intros [= <-]. split; [reflexivity | discriminate].
Qed.

Lemma groupOf_flagged k ds :
  Forall (fun t => h_is_d_entry t = true) (groupOf k ds).
Proof.
  unfold groupOf. apply Forall_forall. intros t Ht.
  apply list_elem_of_In, in_map_iff in Ht. destruct Ht as (e & <- & _). reflexivity.
Qed.

(** ** The walk of step 5.1, without the accumulator *)


Lemma depthLoop_walk groups base i chatMessages finalHistory :
  depthLoop groups base i chatMessages finalHistory =
  finalHistory ++ walk groups base i chatMessages.
Proof.
  revert i finalHistory.
  induction chatMessages as [|msg rest IH]; intros i fh; simpl.
  - rewrite app_nil_r. reflexivity.
  - rewrite IH. unfold emitAt.
    destruct (groups !! (base - i)) as [g|]; simpl;
      destruct (i =? base); simpl;
      try destruct (groups !! 0) as [g0|]; simpl;
      rewrite <- ?app_assoc; simpl; rewrite ?app_nil_r; reflexivity.
Qed.

(** ** Stripping the injected turns *)


Lemma strip_app l1 l2 :
  stripDEntries (l1 ++ l2) = stripDEntries l1 ++ stripDEntries l2.
Proof. apply List.filter_app. Qed.

Lemma strip_flagged g : Forall flagged g -> stripDEntries g = [].
Proof.
  induction 1 as [|t g Ht _ IH]; simpl; [reflexivity|].
  unfold flagged in Ht. rewrite Ht. simpl. exact IH.
Qed.

Lemma strip_unflagged l :
  Forall (fun m => h_is_d_entry m = false) l -> stripDEntries l = l.
Proof.
  induction 1 as [|m l Hm _ IH]; simpl; [reflexivity|].
  rewrite Hm. simpl. f_equal. exact IH.
Qed.

Lemma strip_idem l : stripDEntries (stripDEntries l) = stripDEntries l.
Proof.
  induction l as [|m l IH]; simpl; [reflexivity|].
  destruct (h_is_d_entry m) eqn:E; simpl; [exact IH|].
  rewrite E. simpl. f_equal. exact IH.
Qed.

Lemma strip_splice_insert k x l :
  flagged x -> stripDEntries (JS.splice_insert k x l) = stripDEntries l.
Proof.
  intros Hx. unfold JS.splice_insert.
  set (n := Z.to_nat _).
  rewrite strip_app. simpl. unfold flagged in Hx. rewrite Hx. simpl.
  rewrite <- strip_app, take_drop. reflexivity.
Qed.

Lemma strip_insertBeforeLoop a items fh :
  Forall flagged items ->
  stripDEntries (insertBeforeLoop a items fh) = stripDEntries fh.
Proof.
  intros H. unfold insertBeforeLoop.
  assert (Hr : Forall flagged (rev items)) by (apply Forall_rev; exact H).
  clear H. revert fh.
  induction Hr as [|x l Hx _ IH]; intros fh; simpl; [reflexivity|].
  rewrite IH. apply strip_splice_insert. exact Hx.
Qed.

Lemma strip_insertAfterLoop a i items fh :
  Forall flagged items ->
  stripDEntries (insertAfterLoop a i items fh) = stripDEntries fh.
Proof.
  intros H. revert i fh.
  induction H as [|x l Hx _ IH]; intros i fh; simpl; [reflexivity|].
  rewrite IH. apply strip_splice_insert. exact Hx.
Qed.

Lemma otherPositionEntries_flagged ds : Forall flagged (otherPositionEntries ds).
Proof.
  unfold otherPositionEntries. apply Forall_forall. intros t Ht.
  apply list_elem_of_In, in_map_iff in Ht. destruct Ht as (e & <- & _). reflexivity.
Qed.

Lemma Forall_flagged_filter p l : Forall flagged l -> Forall flagged (List.filter p l).
Proof.
  intros H. apply Forall_forall. intros t Ht.
  apply list_elem_of_In, List.filter_In in Ht. destruct Ht as [Ht _].
  rewrite Forall_forall in H. apply H, list_elem_of_In. exact Ht.
Qed.

Lemma strip_anchorPass others fh :
  Forall flagged others -> stripDEntries (anchorPass others fh) = stripDEntries fh.
Proof.
  intros H. unfold anchorPass.
  destruct (negb _); [|reflexivity].
  rewrite strip_insertAfterLoop by (apply Forall_flagged_filter; exact H).
  apply strip_insertBeforeLoop, Forall_flagged_filter, H.
Qed.

Lemma strip_walk ds base i ms :
  stripDEntries (walk (position4Entries ds) base i ms) = stripDEntries ms.
Proof.
  revert i. induction ms as [|m ms IH]; intros i; [reflexivity|].
  assert (Hg : forall k, stripDEntries (default [] (position4Entries ds !! k)) = []).
  { intros k. rewrite position4Entries_lookup.
    pose proof (groupOf_flagged k ds) as Hf.
    destruct (groupOf k ds) eqn:E; [reflexivity|]. simpl default.
    apply strip_flagged. exact Hf. }
  cbn [walk]. unfold emitAt. rewrite !strip_app, IH, Hg.
  destruct (i =? base); [rewrite Hg|]; simpl;
    destruct (h_is_d_entry m); reflexivity.
Qed.

(** Whatever the history holds, insertion changes nothing but flagged turns. *)
Lemma strip_insertDEntriesToHistory history ds baseMessage :
  stripDEntries (insertDEntriesToHistory history ds baseMessage) =
  stripDEntries history.
Proof.
  unfold insertDEntriesToHistory.
  destruct (_ || _); [reflexivity|].
  rewrite strip_anchorPass by apply otherPositionEntries_flagged.
  rewrite depthLoop_walk. simpl. rewrite strip_walk. apply strip_idem.
Qed.

(** C5: for a history without flagged turns, any list of entries and any base
    message, filtering the flagged turns out of the result of
    [insertDEntriesToHistory] gives back the history, unchanged and in order. *)
Theorem strip_insert_recovers_history history ds baseMessage :
  Forall (fun m => h_is_d_entry m = false) history ->
  stripDEntries (insertDEntriesToHistory history ds baseMessage) = history.
Proof.
  intros H. rewrite strip_insertDEntriesToHistory. apply strip_unflagged, H.
Qed.

Lemma strip_insert_recovers_history_witness :
  stripDEntries
    (insertDEntriesToHistory [Sample.h0; Sample.h1; Sample.h2]
       [Sample.depth0; Sample.depth1; Sample.pos2] "h2")
  = [Sample.h0; Sample.h1; Sample.h2].
Proof.
  apply (strip_insert_recovers_history [Sample.h0; Sample.h1; Sample.h2]).
  repeat constructor.
Defined.

(** ** createDEntry *)

(** C10: [createDEntry] puts the default in place of a falsy value that was
    supplied: [constant] is [true] whatever the options say, a position of 0
    becomes 4 and a depth of 0 becomes 1; no entry it returns has depth 0,
    position 0 or [constant = false]. *)
Theorem createDEntry_falsy_fields_defaulted :
  (forall options,
      d_constant (createDEntry options) = Some true /\
      d_constant (createDEntry options) <> Some false /\
      d_position (createDEntry options) <> Some 0 /\
      d_depth (createDEntry options) <> Some 0) /\
  (forall n c r p d k i,
      d_constant (createDEntry (mkDEntry n c r p d (Some false) k i)) = Some true) /\
  (forall n c r d b k i,
      d_position (createDEntry (mkDEntry n c r (Some 0) d b k i)) = Some 4) /\
  (forall n c r p b k i,
      d_depth (createDEntry (mkDEntry n c r p (Some 0) b k i)) = Some 1).
Proof.
  repeat split; try reflexivity.
  - simpl. destruct (d_constant options) as [[|]|]; reflexivity.
  - simpl. destruct (d_constant options) as [[|]|]; discriminate.
  - simpl. unfold JS.or_num.
    destruct (d_position options) as [p|]; [|discriminate].
    destruct (Z.eqb_spec p 0); [discriminate|congruence].
  - simpl. unfold JS.or_num.
    destruct (d_depth options) as [d|]; [|discriminate].
    destruct (Z.eqb_spec d 0); [discriminate|congruence].
Qed.

(** ** Depth-relative injection *)

Lemma group_default ds k : default [] (position4Entries ds !! k) = groupOf k ds.
Proof.
  rewrite position4Entries_lookup. destruct (groupOf k ds); reflexivity.
Qed.

Lemma walk_app groups base i l1 l2 :
  walk groups base i (l1 ++ l2) =
  walk groups base i l1 ++ walk groups base (i + Z.of_nat (length l1)) l2.
Proof.
  revert i. induction l1 as [|m l1 IH]; intros i.
  - simpl. rewrite Z.add_0_r. reflexivity.
  - cbn [walk app length]. rewrite IH, <- app_assoc.
    do 3 f_equal. lia.
Qed.

(** With the reference turn at index [length pre], the group of key 0 is
    pushed on both sides of it: by the test on [depthFromBase] before the
    turn, and by the test on [i === effectiveBaseIndex] after it. *)
Lemma walk_reference_turn ds pre ref post :
  let base := Z.of_nat (length pre) in
  walk (position4Entries ds) base 0 (pre ++ ref :: post) =
  walk (position4Entries ds) base 0 pre
  ++ (groupOf 0 ds ++ [ref] ++ groupOf 0 ds)
  ++ walk (position4Entries ds) base (base + 1) post.
Proof.
  intros base. rewrite walk_app. f_equal.
  cbn [walk]. unfold emitAt. rewrite Z.add_0_l, Z.sub_diag, Z.eqb_refl.
  rewrite group_default, <- !app_assoc. reflexivity.
Qed.

(** C1: on the history [h0, h1, h2] with [h2] the reference turn (index 2)
    and one entry of position 4 and depth 0, the code emits the entry twice,
    immediately before and immediately after the reference turn. *)
Theorem depth0_entry_emitted_on_both_sides :
  effectiveBaseIndex [Sample.h0; Sample.h1; Sample.h2] "h2" = 2 /\
  insertDEntriesToHistory [Sample.h0; Sample.h1; Sample.h2] [Sample.depth0] "h2"
  = [Sample.h0; Sample.h1;
     position4Turn Sample.depth0; Sample.h2; position4Turn Sample.depth0].
Proof. split; vm_compute; reflexivity. Qed.

(** ** The reference index *)

Lemma findIndex_none {A} (p : A -> bool) (l : list A) :
  forallb (fun x => negb (p x)) l = true -> JS.findIndex p l = -1.
Proof.
  induction l as [|x l IH]; simpl; [reflexivity|].
  intros H. apply andb_true_iff in H. destruct H as [Hx Hl].
  apply negb_true_iff in Hx. rewrite Hx, (IH Hl). reflexivity.
Qed.

(** When no turn matches, [findIndex] gives [-1] and the subtraction gives
    the length: the comparison with [-1] never selects the fallback. *)
Lemma effectiveBaseIndex_missing chatMessages baseMessage :
  forallb (fun m => negb (isBaseMessage baseMessage m)) chatMessages = true ->
  effectiveBaseIndex chatMessages baseMessage = Z.of_nat (length chatMessages).
Proof.
  intros H. unfold effectiveBaseIndex, baseMessageIndex.
  rewrite findIndex_none.
  - destruct (Z.eqb_spec (Z.of_nat (length chatMessages) - 1 - -1) (-1)); simpl; lia.
  - rewrite forallb_forall in *. intros x Hx. apply H, in_rev. exact Hx.
Qed.

(** C3: on the two-turn history [h0, h1] with a reference content that no
    turn carries, the reference index the code computes is 2, the length, and
    not 1, the last index; an entry of depth 1 therefore lands before [h1],
    where the last index would put it before [h0]. *)
Theorem missing_reference_index_is_length :
  forallb (fun m => negb (isBaseMessage "absent" m)) [Sample.h0; Sample.h1] = true /\
  effectiveBaseIndex [Sample.h0; Sample.h1] "absent" = 2 /\
  effectiveBaseIndex [Sample.h0; Sample.h1] "absent"
    <> Z.of_nat (length [Sample.h0; Sample.h1]) - 1 /\
  insertDEntriesToHistory [Sample.h0; Sample.h1] [Sample.depth1] "absent"
  = [Sample.h0; position4Turn Sample.depth1; Sample.h1].
Proof. repeat split; try (vm_compute; reflexivity). vm_compute. discriminate. Qed.

(** ** Anchor-relative injection *)

(** C4: with the anchor between [h0] and [h2], one entry of position 2 and
    one of position 3, the code returns [h0, pos2, pos3, anchor, h2]: the
    position-3 turn is spliced in at the index the anchor had before the
    position-2 turn was inserted, so it lands before the anchor. *)
Theorem position3_entry_lands_before_anchor :
  insertDEntriesToHistory [Sample.h0; Sample.note; Sample.h2]
    [Sample.pos2; Sample.pos3] "h2"
  = [Sample.h0; otherPositionTurn Sample.pos2; otherPositionTurn Sample.pos3;
     Sample.note; Sample.h2] /\
  insertDEntriesToHistory [Sample.h0; Sample.note; Sample.h2]
    [Sample.pos2; Sample.pos3] "h2"
  <> [Sample.h0; otherPositionTurn Sample.pos2; Sample.note;
      otherPositionTurn Sample.pos3; Sample.h2].
Proof. split; [vm_compute; reflexivity | vm_compute; discriminate]. Qed.

(** ** messagesToText *)

Lemma join_history_parts_blank turns :
  JS.all_space
    (JS.join (String "010" EmptyString) (List.map partText (List.map HistoryPart turns)))
  = true.
Proof.
  induction turns as [|t turns IH]; [reflexivity|].
  destruct turns as [|t' turns]; [reflexivity|].
  change (JS.all_space
            (String "010"
               (JS.join (String "010" EmptyString)
                  (List.map partText (List.map HistoryPart (t' :: turns))))) = true).
  cbn [JS.all_space]. rewrite IH. reflexivity.
Qed.

(** A container filled with turns is caught by the first test,
    [Array.isArray(msg.parts)], and renders as line feeds only. *)
Lemma container_text_blank m turns :
  m_parts m = List.map HistoryPart turns ->
  JS.trim_nonempty (messageText m) = false.
Proof.
  intros H. unfold JS.trim_nonempty, messageText, Array_isArray.
  rewrite H, join_history_parts_blank. reflexivity.
Qed.

(** Hence the container contributes nothing to the text. *)
Lemma messagesToText_skips_container pre m post turns :
  m_parts m = List.map HistoryPart turns ->
  messagesToText (pre ++ m :: post) = messagesToText (pre ++ post).
Proof.
  intros H. unfold messagesToText.
  rewrite !map_app, !List.filter_app. cbn [List.map List.filter].
  rewrite (container_text_blank m turns H). reflexivity.
Qed.

(** C8: for the framework [instructions, container], the history
    [user "hi", assistant "hello"] and the new message "how are you", the
    container holds three turns with non-empty text, yet the text built from
    the assembled sequence is "instructions" alone: no turn is rendered, with
    or without a role label. *)
Theorem container_turns_not_rendered :
  (exists m, buildPrompt (Sample.chat []) !! 1%nat = Some m /\
             m_parts m = List.map HistoryPart
                           [userTurn "hi"; Sample.modelTurn "hello";
                            userTurn "how are you"]) /\
  messagesToText (buildPrompt (Sample.chat [])) = "instructions".
Proof.
  split; [eexists; split|]; vm_compute; reflexivity.
Qed.

(** ** The default depth *)

(** C2, as stated, fails: an entry without depth is not filed under key 1,
    and on [h0, h1, h2] with reference [h2] it is not placed before [h1]; it
    is placed around [h2], where an entry of depth 0 is. *)
Lemma absent_depth_not_grouped_at_depth1 :
  position4Entries [Sample.noDepth] !! 1 = None /\
  insertDEntriesToHistory [Sample.h0; Sample.h1; Sample.h2] [Sample.noDepth] "h2"
  <> [Sample.h0; position4Turn Sample.noDepth; Sample.h1; Sample.h2] /\
  insertDEntriesToHistory [Sample.h0; Sample.h1; Sample.h2] [Sample.noDepth] "h2"
  = [Sample.h0; Sample.h1;
     position4Turn Sample.noDepth; Sample.h2; position4Turn Sample.noDepth].
Proof.
  split; [vm_compute; reflexivity|].
  split; [vm_compute; discriminate | vm_compute; reflexivity].
Qed.

(** C2, amended: an entry of position 4 (or without position) whose depth is
    absent is filed under key 0, the key of the entries of depth 0, and under
    no other key. *)
Theorem absent_depth_grouped_at_depth0 ds e :
  In e ds -> isPosition4 e = true -> d_depth e = None ->
  depthKey e = 0 /\
  (exists g, position4Entries ds !! 0 = Some g /\ In (position4Turn e) g) /\
  (forall k g, k <> 0 -> position4Entries ds !! k = Some g ->
               ~ In (position4Turn e) g).
Proof.
  intros Hin Hpos Hdepth.
  assert (Hkey : depthKey e = 0) by (unfold depthKey; rewrite Hdepth; reflexivity).
  assert (Hg : In (position4Turn e) (groupOf 0 ds)).
  { unfold groupOf. apply in_map, List.filter_In. split.
    - apply List.filter_In. split; assumption.
    - rewrite Hkey. reflexivity. }
  split; [exact Hkey|]. split.
  - exists (groupOf 0 ds). split; [|exact Hg].
    rewrite position4Entries_lookup.
    destruct (groupOf 0 ds); [destruct Hg | reflexivity].
  - intros k g Hk Hlook Hmem.
    apply position4Entries_Some in Hlook. destruct Hlook as [-> _].
    unfold groupOf in Hmem. apply in_map_iff in Hmem.
    destruct Hmem as (e' & Heq & He').
    apply List.filter_In in He'. destruct He' as [_ Hk'].
    apply Z.eqb_eq in Hk'.
    assert (Hd : d_depth e' = None).
    { change (h_depth (position4Turn e') = None). rewrite Heq. exact Hdepth. }
    unfold depthKey in Hk'. rewrite Hd in Hk'. simpl in Hk'. congruence.
Qed.

Lemma absent_depth_grouped_at_depth0_witness :
  depthKey Sample.noDepth = 0 /\
  (exists g, position4Entries [Sample.depth1; Sample.noDepth] !! 0 = Some g /\
             In (position4Turn Sample.noDepth) g) /\
  (forall k g, k <> 0 ->
               position4Entries [Sample.depth1; Sample.noDepth] !! k = Some g ->
               ~ In (position4Turn Sample.noDepth) g).
Proof.
  apply (absent_depth_grouped_at_depth0 [Sample.depth1; Sample.noDepth] Sample.noDepth).
  - right. left. reflexivity.
  - reflexivity.
  - reflexivity.
Defined.

(** ** The framework shell and its containers *)

Lemma isSlotBlock_frameworkBlock e : isSlotBlock (frameworkBlock e) = isContainerEntry e.
Proof. unfold frameworkBlock. destruct (isContainerEntry e); reflexivity. Qed.

Lemma countSlots_app l1 l2 : countSlots (l1 ++ l2) = (countSlots l1 + countSlots l2)%nat.
Proof. unfold countSlots. rewrite List.filter_app, length_app. reflexivity. Qed.

Lemma countSlots_shell fw :
  countSlots (List.map frameworkBlock fw) = countContainerEntries fw.
Proof.
  unfold countSlots, countContainerEntries.
  induction fw as [|e fw IH]; simpl; [reflexivity|].
  rewrite isSlotBlock_frameworkBlock.
  destruct (isContainerEntry e); simpl; rewrite IH; reflexivity.
Qed.

Lemma frameworkStep_eq ms idx e :
  frameworkStep (ms, idx) e =
  if isContainerEntry e
  then (ms ++ [containerBlock e], Z.of_nat (length ms))
  else (ms ++ [staticBlock e], idx).
Proof. reflexivity. Qed.

(** What the [forEach] leaves: one block per entry, and an index that is
    untouched without a container entry and points at a container otherwise. *)
Lemma fold_frameworkStep fw : forall messages chatHistoryIndex,
  let r := fold_left frameworkStep fw (messages, chatHistoryIndex) in
  fst r = messages ++ List.map frameworkBlock fw /\
  (countContainerEntries fw = 0%nat -> snd r = chatHistoryIndex) /\
  (countContainerEntries fw <> 0%nat ->
   0 <= snd r /\
   exists m, fst r !! Z.to_nat (snd r) = Some m /\ isSlotBlock m = true).
Proof.
  induction fw as [|e fw IH]; intros ms idx; cbn zeta.
  - simpl. rewrite app_nil_r. split; [reflexivity|]. split; [reflexivity|].
    intros Hc. destruct Hc. reflexivity.
  - cbn [fold_left List.map]. rewrite frameworkStep_eq.
    unfold countContainerEntries at 1 2. cbn [List.filter]. unfold frameworkBlock at 1.
    destruct (isContainerEntry e) eqn:He;
      change (length (List.filter isContainerEntry fw)) with (countContainerEntries fw).
    + specialize (IH (ms ++ [containerBlock e]) (Z.of_nat (length ms))).
      cbn zeta in IH. destruct IH as (IH1 & IH2 & IH3).
      split; [rewrite IH1, <- app_assoc; reflexivity|].
      split; [simpl; discriminate|].
      intros _. destruct (Nat.eq_dec (countContainerEntries fw) 0%nat) as [Hz|Hnz].
      * rewrite (IH2 Hz), IH1. split; [lia|].
        exists (containerBlock e). rewrite Nat2Z.id. split; [|reflexivity].
        rewrite <- app_assoc. apply list_lookup_middle. reflexivity.
      * apply IH3. exact Hnz.
    + specialize (IH (ms ++ [staticBlock e]) idx).
      cbn zeta in IH. destruct IH as (IH1 & IH2 & IH3).
      split; [rewrite IH1, <- app_assoc; reflexivity|].
      split; assumption.
Qed.

Lemma isSlotBlock_filled m turns :
  isSlotBlock {| m_name := m_name m;
                 m_role := m_role m;
                 m_parts := List.map HistoryPart turns;
                 m_identifier := m_identifier m |} = true.
Proof. destruct turns as [|t [|t' turns]]; reflexivity. Qed.

(** Filling a container leaves the number of containers as it was. *)
Lemma countSlots_setParts idx turns ms m :
  ms !! Z.to_nat idx = Some m -> isSlotBlock m = true ->
  countSlots (setParts idx turns ms) = countSlots ms.
Proof.
  unfold setParts. generalize (Z.to_nat idx) as n. intros n. revert n.
  induction ms as [|x ms IH]; intros n Hn Hm; [reflexivity|].
  destruct n as [|n].
  - simpl in Hn. injection Hn as ->.
    pose proof (isSlotBlock_filled m turns) as Hf.
    unfold countSlots. simpl. simpl in Hf. rewrite Hf, Hm. reflexivity.
  - simpl in Hn. specialize (IH n Hn Hm).
    unfold countSlots in *. unfold alter in IH. simpl.
    destruct (isSlotBlock x); simpl; rewrite IH; reflexivity.
Qed.

(** The number of containers in the output, for every input. *)
Lemma countSlots_buildPrompt options :
  countSlots (buildPrompt options) =
  if (countContainerEntries (rFramework options) =? 0)%nat
  then (if hasConversation options then 1%nat else 0%nat)
  else countContainerEntries (rFramework options).
Proof.
  unfold buildPrompt, hasConversation.
  pose proof (fold_frameworkStep (rFramework options) [] (-1)) as H.
  cbn zeta in H.
  destruct (fold_left frameworkStep (rFramework options) ([], -1)) as [ms idx].
  cbn [fst snd] in H. destruct H as (Hms & Hz & Hnz). rewrite app_nil_l in Hms.
  destruct (Nat.eqb_spec (countContainerEntries (rFramework options)) 0%nat) as [E|E].
  - rewrite (Hz E), Z.eqb_refl. cbn [andb].
    destruct (_ || _).
    + assert (Hne : (Z.of_nat (length ms) =? -1) = false) by (apply Z.eqb_neq; lia).
      rewrite Hne. cbn [negb].
      rewrite (countSlots_setParts _ _ _ defaultContainer).
      * rewrite countSlots_app, Hms, countSlots_shell, E. reflexivity.
      * rewrite Nat2Z.id. apply list_lookup_middle. reflexivity.
      * reflexivity.
    + rewrite Z.eqb_refl. cbn [negb]. rewrite Hms, countSlots_shell. exact E.
  - destruct (Hnz E) as (Hpos & m & Hm & Hslot).
    assert (Hne : (idx =? -1) = false) by (apply Z.eqb_neq; lia).
    rewrite Hne. cbn [andb negb]. rewrite Hne. cbn [negb].
    rewrite (countSlots_setParts _ _ _ m Hm Hslot), Hms. apply countSlots_shell.
Qed.

(** C6, as stated, fails: with an empty framework, no history and no message
    the output is empty, so it has no container at all; and a framework that
    flags two entries gets two containers. *)
Lemma no_container_without_conversation :
  buildPrompt Sample.noInput = [] /\
  countSlots (buildPrompt Sample.noInput) <> 1%nat /\
  countSlots (buildPrompt Sample.twoContainers) = 2%nat.
Proof.
  split; [vm_compute; reflexivity|].
  split; [vm_compute; discriminate | vm_compute; reflexivity].
Qed.

(** C6, amended: for a framework with at most one container entry, the output
    has exactly one container when the framework has one or when there is a
    turn of history or a non-empty new message, and none otherwise. *)
Theorem one_container_when_declared_or_needed options :
  (countContainerEntries (rFramework options) <= 1)%nat ->
  countSlots (buildPrompt options) =
  if (countContainerEntries (rFramework options) =? 1)%nat || hasConversation options
  then 1%nat else 0%nat.
Proof.
  intros H. rewrite countSlots_buildPrompt.
  destruct (countContainerEntries (rFramework options)) as [|[|n]]; simpl.
  - reflexivity.
  - reflexivity.
  - lia.
Qed.

Lemma one_container_when_declared_or_needed_witness :
  countSlots (buildPrompt (Sample.chat [Sample.depth1])) = 1%nat.
Proof.
  apply (one_container_when_declared_or_needed (Sample.chat [Sample.depth1])).
  vm_compute. lia.
Defined.

(** ** The window on the raw history *)

Lemma processHistory_length l :
  (length (processHistory l) + length (List.filter c_is_d_entry l))%nat = length l.
Proof.
  unfold processHistory.
  induction l as [|m l IH]; simpl; [reflexivity|].
  unfold processHistory_step at 1.
  destruct (c_is_d_entry m); simpl; lia.
Qed.

(** For a positive [W], [slice(-W)] keeps the last [W] elements, or all of
    them when there are fewer. *)
Lemma slice_from_window {A} (W : Z) (l : list A) :
  0 < W -> JS.slice_from (- W) l = drop (length l - Z.to_nat W) l.
Proof.
  intros HW. unfold JS.slice_from.
  assert (Hneg : (- W <? 0) = true) by (apply Z.ltb_lt; lia).
  rewrite Hneg. f_equal. lia.
Qed.

(** C7, as stated, fails: with the raw history [a, b, x], [x] flagged, and a
    window of 2, the window [b, x] is taken first and [x] dropped from it, so
    the normalized history is [b] alone: its length is neither the minimum of
    the raw length and the window, nor what dropping [x] before taking the
    window would give.  A new message that is the empty string is not
    appended, and a window of 0 keeps the whole history. *)
Lemma flagged_turn_dropped_after_window :
  let raw := [Sample.rawTurn "user" "a" false;
              Sample.rawTurn "assistant" "b" false;
              Sample.rawTurn "user" "x" true] in
  normalizedHistory raw None 2 = [Sample.modelTurn "b"] /\
  Z.of_nat (length (normalizedHistory raw None 2)) <> Z.min (Z.of_nat (length raw)) 2 /\
  normalizedHistory raw None 2 <> JS.slice_from (- 2) (processHistory raw) /\
  Z.of_nat (length (normalizedHistory raw (Some EmptyString) 15))
  <> Z.min (Z.of_nat (length raw)) 15 + 1 /\
  Z.of_nat (length (normalizedHistory [Sample.rawTurn "user" "a" false] None 0))
  <> Z.min 1 0.
Proof.
  cbv zeta. split; [vm_compute; reflexivity|].
  repeat split; vm_compute; discriminate.
Qed.

(** C7, amended: for a raw history of length L and a positive window W
    (15 when none is given), the last min(L, W) raw turns are taken first and
    the flagged turns are dropped from that window afterwards; the normalized
    history has length min(L, W), minus the number of flagged turns in the
    window, plus 1 when a non-empty new message is supplied. *)
Theorem normalizedHistory_length chatHistory userMessage (w : option Z) :
  0 < default 15 w ->
  normalizedHistory chatHistory userMessage (default 15 w)
  = processHistory (drop (length chatHistory - Z.to_nat (default 15 w)) chatHistory)
    ++ (if JS.truthy_str userMessage
        then [userTurn (JS.or_str userMessage EmptyString)] else []) /\
  Z.of_nat (length (drop (length chatHistory - Z.to_nat (default 15 w)) chatHistory))
  = Z.min (Z.of_nat (length chatHistory)) (default 15 w) /\
  Z.of_nat (length (normalizedHistory chatHistory userMessage (default 15 w)))
  = Z.min (Z.of_nat (length chatHistory)) (default 15 w)
    - Z.of_nat (length (List.filter c_is_d_entry
                          (drop (length chatHistory - Z.to_nat (default 15 w))
                                chatHistory)))
    + (if JS.truthy_str userMessage then 1 else 0).
Proof.
  intros HW. set (W := default 15 w) in *.
  set (window := drop (length chatHistory - Z.to_nat W) chatHistory).
  assert (Hn : normalizedHistory chatHistory userMessage W
               = processHistory window
                 ++ (if JS.truthy_str userMessage
                     then [userTurn (JS.or_str userMessage EmptyString)] else [])).
  { unfold normalizedHistory. rewrite slice_from_window by exact HW. fold window.
    destruct (JS.truthy_str userMessage); [reflexivity | rewrite app_nil_r; reflexivity]. }
  assert (Hw : Z.of_nat (length window) = Z.min (Z.of_nat (length chatHistory)) W).
  { unfold window. rewrite length_drop. lia. }
  split; [exact Hn|]. split; [exact Hw|].
  rewrite Hn, length_app. pose proof (processHistory_length window) as Hp.
  destruct (JS.truthy_str userMessage); simpl length; lia.
Qed.

Lemma normalizedHistory_length_witness :
  Z.of_nat (length (normalizedHistory
                      [Sample.rawTurn "user" "a" false;
                       Sample.rawTurn "assistant" "b" false;
                       Sample.rawTurn "user" "x" true]
                      (Some "new") (default 15 (Some 2))))
  = 2.
Proof.
  apply (normalizedHistory_length
           [Sample.rawTurn "user" "a" false;
            Sample.rawTurn "assistant" "b" false;
            Sample.rawTurn "user" "x" true] (Some "new") (Some 2)).
  simpl. lia.
Defined.

(** ** buildPrompt and the positions of the entries *)

Lemma processHistory_plain l : Forall plainTurn (processHistory l).
Proof.
  unfold processHistory.
  induction l as [|m l IH]; simpl; [constructor|].
  unfold processHistory_step at 1.
  destruct (c_is_d_entry m); [exact IH|].
  constructor; [split; reflexivity | exact IH].
Qed.

Lemma normalizedHistory_plain chatHistory userMessage W :
  Forall plainTurn (normalizedHistory chatHistory userMessage W).
Proof.
  unfold normalizedHistory.
  destruct (JS.truthy_str userMessage); [|apply processHistory_plain].
  apply Forall_app. split; [apply processHistory_plain|].
  constructor; [split; reflexivity | constructor].
Qed.

Lemma walk_no_anchor ds base i h :
  Forall plainTurn h ->
  forallb (fun m => negb (h_is_author_note m)) (walk (position4Entries ds) base i h) = true.
Proof.
  intros H. revert i.
  assert (Hg : forall k,
             forallb (fun m => negb (h_is_author_note m))
                     (default [] (position4Entries ds !! k)) = true).
  { intros k. rewrite group_default. unfold groupOf.
    apply forallb_forall. intros t Ht. apply in_map_iff in Ht.
    destruct Ht as (e & <- & _). reflexivity. }
  induction H as [|m h [_ Hm] _ IH]; intros i; [reflexivity|].
  cbn [walk]. unfold emitAt. rewrite !forallb_app, IH, Hg.
  cbn [forallb]. rewrite Hm.
  destruct (i =? base); [rewrite Hg|]; reflexivity.
Qed.

Lemma walk_no_groups groups base i h :
  (forall k, groups !! k = None) -> walk groups base i h = h.
Proof.
  intros Hnone. revert i. induction h as [|m h IH]; intros i; [reflexivity|].
  cbn [walk]. unfold emitAt. rewrite IH, !Hnone.
  destruct (i =? base); reflexivity.
Qed.

(** On a history of plain turns the anchor pass finds no anchor, and the
    result is the walk of step 5.1, early returns included. *)
Lemma insertDEntriesToHistory_plain h ds baseMessage :
  Forall plainTurn h ->
  insertDEntriesToHistory h ds baseMessage =
  walk (position4Entries ds) (effectiveBaseIndex h baseMessage) 0 h.
Proof.
  intros H. unfold insertDEntriesToHistory.
  destruct ds as [|d ds].
  { simpl. symmetry. apply walk_no_groups. intros k. apply lookup_empty. }
  destruct h as [|m h]; [reflexivity|].
  cbn [length Nat.eqb orb].
  assert (Hs : List.filter (fun msg => negb (h_is_d_entry msg)) (m :: h) = m :: h).
  { apply strip_unflagged. eapply Forall_impl; [exact H|]. intros x [Hx _]. exact Hx. }
  rewrite Hs, depthLoop_walk, app_nil_l.
  unfold anchorPass. rewrite findIndex_none by (apply walk_no_anchor; exact H).
  reflexivity.
Qed.

Lemma filter_filter_implied {A} (p q : A -> bool) l :
  (forall x, p x = true -> q x = true) ->
  List.filter p (List.filter q l) = List.filter p l.
Proof.
  intros Hpq. induction l as [|x l IH]; simpl; [reflexivity|].
  destruct (q x) eqn:Hq; simpl.
  - destruct (p x); rewrite IH; reflexivity.
  - destruct (p x) eqn:Hp; [|exact IH].
    rewrite (Hpq x Hp) in Hq. discriminate.
Qed.

Lemma position4Entries_in_range ds :
  position4Entries (List.filter positionInRange ds) = position4Entries ds.
Proof.
  unfold position4Entries. rewrite filter_filter_implied; [reflexivity|].
  intros e. unfold isPosition4, positionInRange.
  destruct (d_position e) as [p|]; [|reflexivity].
  intros Hp. apply Z.eqb_eq in Hp. subst p. reflexivity.
Qed.

Lemma length_setParts idx turns ms : length (setParts idx turns ms) = length ms.
Proof. unfold setParts. apply length_alter. Qed.

Lemma length_buildPrompt options :
  length (buildPrompt options) =
  (length (rFramework options)
   + (if (countContainerEntries (rFramework options) =? 0)%nat && hasConversation options
      then 1 else 0))%nat.
Proof.
  unfold buildPrompt, hasConversation.
  pose proof (fold_frameworkStep (rFramework options) [] (-1)) as H.
  cbn zeta in H.
  destruct (fold_left frameworkStep (rFramework options) ([], -1)) as [ms idx].
  cbn [fst snd] in H. destruct H as (Hms & Hz & Hnz). rewrite app_nil_l in Hms.
  assert (Hlen : length ms = length (rFramework options))
    by (rewrite Hms; apply length_map).
  destruct (Nat.eqb_spec (countContainerEntries (rFramework options)) 0%nat) as [E|E].
  - rewrite (Hz E), Z.eqb_refl. cbn [andb].
    destruct (_ || _).
    + assert (Hne : (Z.of_nat (length ms) =? -1) = false) by (apply Z.eqb_neq; lia).
      rewrite Hne. cbn [negb]. rewrite length_setParts, length_app, Hlen. reflexivity.
    + rewrite Z.eqb_refl. cbn [negb]. lia.
  - destruct (Hnz E) as (Hpos & _).
    assert (Hne : (idx =? -1) = false) by (apply Z.eqb_neq; lia).
    rewrite Hne. cbn [andb negb]. rewrite Hne. cbn [negb].
    rewrite length_setParts. lia.
Qed.

(** Entries whose position is out of range leave no trace in the output. *)
Lemma buildPrompt_ignores_out_of_range options :
  buildPrompt options = buildPrompt (withoutOutOfRange options).
Proof.
  unfold buildPrompt, withoutOutOfRange. cbn [rFramework dEntries chatHistory
    userMessage maxHistoryLength JS.or_list].
  destruct (fold_left frameworkStep (rFramework options) ([], -1)) as [ms idx].
  destruct (if (idx =? -1) && _ then _ else _) as [ms' idx'].
  destruct (negb (idx' =? -1)); [|reflexivity].
  rewrite !insertDEntriesToHistory_plain by apply normalizedHistory_plain.
  rewrite position4Entries_in_range. reflexivity.
Qed.

(** C9, as stated, fails: given an entry of position 7 the call returns, and
    the value returned is the one obtained without the entry. *)
Lemma out_of_range_position_not_rejected :
  buildPrompt_outcome (Sample.chat [Sample.pos7])
  = Returned (buildPrompt (Sample.chat [])) /\
  positionInRange Sample.pos7 = false /\
  ~ (exists field, buildPrompt_outcome (Sample.chat [Sample.pos7])
                   = Thrown (ValidationError field)).
Proof.
  split; [vm_compute; reflexivity|].
  split; [reflexivity|].
  intros [field H]. discriminate H.
Qed.

(** C9, amended: [buildPrompt] never fails.  For every input, whatever the
    positions of its entries, it returns a sequence with one block per
    framework entry, plus the appended container when the framework has none
    and there is a conversation; an entry whose position is outside [0,4] is
    ignored, the output being the one obtained without it. *)
Theorem buildPrompt_always_returns options :
  exists out,
    buildPrompt_outcome options = Returned out /\
    out = buildPrompt (withoutOutOfRange options) /\
    length out =
    (length (rFramework options)
     + (if (countContainerEntries (rFramework options) =? 0)%nat
           && hasConversation options
        then 1 else 0))%nat.
Proof.
  exists (buildPrompt options). split; [reflexivity|].
  split; [apply buildPrompt_ignores_out_of_range | apply length_buildPrompt].
Qed.

(** * Further properties of the service *)

(** ** The groups built by the reducer *)

(** X1: the reducer files under key [k] exactly the entries of position 4
    (or without position) whose [depth || 0] is [k], as turns, in the order
    of the entries; a key no entry has is absent from the object. *)
Theorem position4Entries_groups ds k :
  position4Entries ds !! k =
  (let members :=
     List.filter (fun e => isPosition4 e && (depthKey e =? k)) ds in
   if (length members =? 0)%nat then None
   else Some (List.map position4Turn members)).
Proof.
  rewrite position4Entries_lookup. unfold groupOf. cbv zeta.
  assert (E : List.filter (fun e => depthKey e =? k) (List.filter isPosition4 ds)
              = List.filter (fun e => isPosition4 e && (depthKey e =? k)) ds).
  { induction ds as [|e ds IH]; simpl; [reflexivity|].
    destruct (isPosition4 e); simpl; [|exact IH].
    destruct (depthKey e =? k); rewrite IH; reflexivity. }
  rewrite E. clear E.
  generalize (List.filter (fun e => isPosition4 e && (depthKey e =? k)) ds).
  intros [|e members]; reflexivity.
Qed.

(** ** The reference turn *)

Lemma findIndex_first {A} (p : A -> bool) pre x post :
  forallb (fun y => negb (p y)) pre = true -> p x = true ->
  JS.findIndex p (pre ++ x :: post) = Z.of_nat (length pre).
Proof.
  intros Hpre Hx. induction pre as [|y pre IH]; simpl.
  - rewrite Hx. reflexivity.
  - simpl in Hpre. apply andb_true_iff in Hpre. destruct Hpre as [Hy Hpre].
    apply negb_true_iff in Hy. rewrite Hy, (IH Hpre).
    destruct (Z.eqb_spec (Z.of_nat (length pre)) (-1)); lia.
Qed.

Lemma findIndex_bounds {A} (p : A -> bool) l :
  -1 <= JS.findIndex p l < Z.of_nat (length l) \/ (l = [] /\ JS.findIndex p l = -1).
Proof.
  induction l as [|x l IH]; [right; split; reflexivity|].
  left. simpl. destruct (p x); [lia|].
  destruct IH as [IH|[-> IH]].
  - destruct (Z.eqb_spec (JS.findIndex p l) (-1)); lia.
  - simpl. lia.
Qed.

Lemma findIndex_found {A} (p : A -> bool) l :
  JS.findIndex p l = -1 -> forallb (fun x => negb (p x)) l = true.
Proof.
  induction l as [|x l IH]; simpl; [reflexivity|].
  destruct (p x); [discriminate|].
  destruct (Z.eqb_spec (JS.findIndex p l) (-1)) as [E|E]; [intros _; apply IH, E|].
  pose proof (findIndex_bounds p l) as [B|[_ B]]; lia.
Qed.

Lemma effectiveBaseIndex_last_match pre m post baseMessage :
  isBaseMessage baseMessage m = true ->
  forallb (fun t => negb (isBaseMessage baseMessage t)) post = true ->
  effectiveBaseIndex (pre ++ m :: post) baseMessage = Z.of_nat (length pre).
Proof.
  intros Hm Hpost. unfold effectiveBaseIndex, baseMessageIndex.
  rewrite rev_app_distr. cbn [rev]. rewrite <- app_assoc. cbn [app].
  rewrite findIndex_first; [| |exact Hm].
  - rewrite length_rev, length_app. cbn [length].
    destruct (Z.eqb_spec (Z.of_nat (length pre + S (length post)) - 1
                          - Z.of_nat (length post)) (-1)); cbn [negb]; lia.
  - rewrite forallb_forall in *. intros x Hx. apply Hpost, in_rev. exact Hx.
Qed.

(** X2: when several user turns carry the base message, the reference is the
    last of them: for a history [pre ++ m :: post] where [m] matches and no
    turn of [post] does, the reference index is the index of [m]. *)
Theorem reference_is_last_matching_turn pre m post baseMessage :
  isBaseMessage baseMessage m = true ->
  forallb (fun t => negb (isBaseMessage baseMessage t)) post = true ->
  effectiveBaseIndex (pre ++ m :: post) baseMessage = Z.of_nat (length pre).
Proof. apply effectiveBaseIndex_last_match. Qed.

Lemma reference_is_last_matching_turn_witness :
  effectiveBaseIndex ([userTurn "again"; Sample.h1] ++ userTurn "again" :: [Sample.h1])
                     "again" = 2.
Proof.
  apply (reference_is_last_matching_turn
           [userTurn "again"; Sample.h1] (userTurn "again") [Sample.h1] "again");
    reflexivity.
Defined.

Lemma effectiveBaseIndex_range chatMessages baseMessage :
  0 <= effectiveBaseIndex chatMessages baseMessage <= Z.of_nat (length chatMessages).
Proof.
  unfold effectiveBaseIndex, baseMessageIndex.
  pose proof (findIndex_bounds (isBaseMessage baseMessage) (rev chatMessages)) as B.
  rewrite length_rev in B.
  destruct (Z.eqb_spec (Z.of_nat (length chatMessages) - 1
                        - JS.findIndex (isBaseMessage baseMessage) (rev chatMessages))
                       (-1)); cbn [negb]; destruct B as [B|[_ B]]; lia.
Qed.

(** X3: the reference index always lies between 0 and the length of the
    history, and it is the length, one past the last turn, exactly when no
    user turn carries the base message. *)
Theorem reference_index_range chatMessages baseMessage :
  0 <= effectiveBaseIndex chatMessages baseMessage <= Z.of_nat (length chatMessages) /\
  (effectiveBaseIndex chatMessages baseMessage = Z.of_nat (length chatMessages)
   <-> forallb (fun m => negb (isBaseMessage baseMessage m)) chatMessages = true).
Proof.
  split; [apply effectiveBaseIndex_range|].
  split; [|apply effectiveBaseIndex_missing].
  intros H.
  assert (Hf : JS.findIndex (isBaseMessage baseMessage) (rev chatMessages) = -1).
  { unfold effectiveBaseIndex, baseMessageIndex in H.
    destruct (Z.eqb_spec (Z.of_nat (length chatMessages) - 1
                          - JS.findIndex (isBaseMessage baseMessage) (rev chatMessages))
                         (-1)); cbn [negb] in H; lia. }
  apply findIndex_found in Hf. rewrite forallb_forall in *.
  intros x Hx. apply Hf. rewrite <- in_rev. exact Hx.
Qed.

(** ** Running the insertion again *)

(** X4: the insertion is idempotent: run on its own output with the same
    entries and base message, it returns that output unchanged, because the
    turns it had injected are filtered out first. *)
Theorem insertDEntriesToHistory_idempotent history ds baseMessage :
  insertDEntriesToHistory (insertDEntriesToHistory history ds baseMessage) ds baseMessage
  = insertDEntriesToHistory history ds baseMessage.
Proof.
  destruct ds as [|d ds]; [reflexivity|].
  set (G := fun cm =>
              anchorPass (otherPositionEntries (d :: ds))
                (depthLoop (position4Entries (d :: ds))
                   (effectiveBaseIndex cm baseMessage) 0 cm [])).
  assert (Hgen : forall h, h <> [] ->
            insertDEntriesToHistory h (d :: ds) baseMessage = G (stripDEntries h)).
  { intros [|m h] Hh; [congruence | reflexivity]. }
  destruct history as [|m h]; [reflexivity|].
  pose proof (strip_insertDEntriesToHistory (m :: h) (d :: ds) baseMessage) as Hs.
  destruct (insertDEntriesToHistory (m :: h) (d :: ds) baseMessage) as [|x r] eqn:Hr;
    [reflexivity|].
  rewrite Hgen by discriminate. rewrite Hs, <- Hgen by discriminate. exact Hr.
Qed.

(** ** Where the turns of the output come from *)

Lemma In_splice_insert {A} k (x t : A) l :
  In t (JS.splice_insert k x l) -> t = x \/ In t l.
Proof.
  unfold JS.splice_insert. set (n := Z.to_nat _). intros H.
  apply in_app_or in H. destruct H as [H|[H|H]].
  - right. rewrite <- (take_drop n l). apply in_or_app. left. exact H.
  - left. symmetry. exact H.
  - right. rewrite <- (take_drop n l). apply in_or_app. right. exact H.
Qed.

Lemma In_insertBeforeLoop a items fh t :
  In t (insertBeforeLoop a items fh) -> In t items \/ In t fh.
Proof.
  unfold insertBeforeLoop. intros H.
  assert (G : In t (rev items) \/ In t fh).
  { revert fh H. generalize (rev items) as xs.
    induction xs as [|x xs IH]; intros fh H; simpl in H; [right; exact H|].
    apply IH in H. destruct H as [H|H]; [left; right; exact H|].
    apply In_splice_insert in H. destruct H as [->|H]; [left; left; reflexivity|].
    right. exact H. }
  destruct G as [G|G]; [left; apply in_rev; exact G | right; exact G].
Qed.

Lemma In_insertAfterLoop a i items fh t :
  In t (insertAfterLoop a i items fh) -> In t items \/ In t fh.
Proof.
  revert i fh. induction items as [|x items IH]; intros i fh H; simpl in H.
  - right. exact H.
  - apply IH in H. destruct H as [H|H]; [left; right; exact H|].
    apply In_splice_insert in H. destruct H as [->|H]; [left; left; reflexivity|].
    right. exact H.
Qed.

Lemma In_walk groups base i l t :
  In t (walk groups base i l) <->
  In t l \/
  exists j, (j < length l)%nat /\
            In t (default [] (groups !! (base - (i + Z.of_nat j)))).
Proof.
  revert i. induction l as [|m l IH]; intros i.
  - simpl. split; [intros []|]. intros [[]|(j & Hj & _)]. simpl in Hj. lia.
  - cbn [walk]. unfold emitAt. rewrite !in_app_iff, IH. cbn [In length]. split.
    + intros [[H|[[H|[]]|H]]|[H|(j & Hj & H)]].
      * right. exists 0%nat. split; [lia|]. rewrite Z.add_0_r. exact H.
      * left. left. exact H.
      * destruct (Z.eqb_spec i base) as [E|_]; [|destruct H].
        right. exists 0%nat. split; [lia|]. rewrite Z.add_0_r, E, Z.sub_diag. exact H.
      * left. right. exact H.
      * right. exists (S j). split; [lia|].
        replace (i + Z.of_nat (S j)) with (i + 1 + Z.of_nat j) by lia. exact H.
    + intros [[H|H]|(j & Hj & H)].
      * left. right. left. left. exact H.
      * right. left. exact H.
      * destruct j as [|j].
        -- rewrite Z.add_0_r in H. left. left. exact H.
        -- right. right. exists j. split; [lia|].
           replace (i + 1 + Z.of_nat j) with (i + Z.of_nat (S j)) by lia. exact H.
Qed.

Lemma In_group ds k t :
  In t (default [] (position4Entries ds !! k)) ->
  exists e, In e ds /\ isPosition4 e = true /\ depthKey e = k /\ t = position4Turn e.
Proof.
  rewrite group_default. unfold groupOf. intros H.
  apply in_map_iff in H. destruct H as (e & <- & He).
  apply List.filter_In in He. destruct He as [He Hk].
  apply List.filter_In in He. destruct He as [He Hp].
  exists e. repeat split; try assumption. apply Z.eqb_eq. exact Hk.
Qed.

(** X5: nothing is fabricated: every turn of the output is a turn of the
    history, or the turn built from an entry of position 4 (or without
    position), or the turn built from an entry of position 2 or 3.  Entries
    of any other position never reach the output. *)
Theorem inserted_turns_come_from_entries history ds baseMessage t :
  In t (insertDEntriesToHistory history ds baseMessage) ->
  In t history \/
  exists e, In e ds /\
            ((isPosition4 e = true /\ t = position4Turn e) \/
             ((d_position e = Some 2 \/ d_position e = Some 3)
              /\ t = otherPositionTurn e)).
Proof.
  unfold insertDEntriesToHistory.
  destruct (_ || _); [left; assumption|].
  assert (Hother : forall n, (n = 2 \/ n = 3) ->
            In t (List.filter (hasPosition n) (otherPositionEntries ds)) ->
            exists e, In e ds /\
              ((isPosition4 e = true /\ t = position4Turn e) \/
               ((d_position e = Some 2 \/ d_position e = Some 3)
                /\ t = otherPositionTurn e))).
  { intros n Hn H. apply List.filter_In in H. destruct H as [H Hp].
    unfold otherPositionEntries in H. apply in_map_iff in H.
    destruct H as (e & <- & He). apply List.filter_In in He. destruct He as [He _].
    exists e. split; [exact He|]. right. split; [|reflexivity].
    unfold hasPosition in Hp. cbn [otherPositionTurn h_position] in Hp.
    destruct (d_position e) as [p|]; [|discriminate].
    apply Z.eqb_eq in Hp. subst p. destruct Hn as [->| ->]; [left|right]; reflexivity. }
  assert (Hwalk : In t (depthLoop (position4Entries ds)
                          (effectiveBaseIndex
                             (List.filter (fun msg => negb (h_is_d_entry msg)) history)
                             baseMessage) 0
                          (List.filter (fun msg => negb (h_is_d_entry msg)) history) []) ->
            In t history \/
            exists e, In e ds /\
              ((isPosition4 e = true /\ t = position4Turn e) \/
               ((d_position e = Some 2 \/ d_position e = Some 3)
                /\ t = otherPositionTurn e))).
  { rewrite depthLoop_walk, app_nil_l, In_walk. intros [H|(j & _ & H)].
    - left. apply List.filter_In in H. destruct H as [H _]. exact H.
    - right. apply In_group in H. destruct H as (e & He & Hp & _ & ->).
      exists e. split; [exact He|]. left. split; [exact Hp | reflexivity]. }
  unfold anchorPass. destruct (negb _); [|exact Hwalk].
  intros H. apply In_insertAfterLoop in H. destruct H as [H|H].
  - right. apply (Hother 3); [right; reflexivity | exact H].
  - apply In_insertBeforeLoop in H. destruct H as [H|H].
    + right. apply (Hother 2); [left; reflexivity | exact H].
    + apply Hwalk, H.
Qed.

Lemma inserted_turns_come_from_entries_witness :
  In Sample.h1 [Sample.h0; Sample.h1] \/
  exists e, In e [Sample.depth1] /\
            ((isPosition4 e = true /\ Sample.h1 = position4Turn e) \/
             ((d_position e = Some 2 \/ d_position e = Some 3)
              /\ Sample.h1 = otherPositionTurn e)).
Proof.
  apply (inserted_turns_come_from_entries
           [Sample.h0; Sample.h1] [Sample.depth1] "absent" Sample.h1).
  vm_compute. right. right. left. reflexivity.
Defined.

(** ** Where an entry of position 4 lands *)

Lemma plain_unflagged h :
  Forall plainTurn h -> Forall (fun m => h_is_d_entry m = false) h.
Proof. intros H. eapply Forall_impl; [exact H|]. intros x [Hx _]. exact Hx. Qed.

Lemma strip_group ds k : stripDEntries (default [] (position4Entries ds !! k)) = [].
Proof. rewrite group_default. apply strip_flagged, groupOf_flagged. Qed.

(** X6: on a history of plain turns, the turn of an entry of position 4 (or
    without position) is in the output exactly when some turn of the history
    stands at the distance [depth || 0] before the reference index; an entry
    whose depth matches no turn is dropped. *)
Theorem position4_entry_emitted_iff_distance_matches history ds baseMessage e :
  Forall plainTurn history -> In e ds -> isPosition4 e = true ->
  (In (position4Turn e) (insertDEntriesToHistory history ds baseMessage)
   <-> 0 <= effectiveBaseIndex history baseMessage - depthKey e
          < Z.of_nat (length history)).
Proof.
  intros Hplain He Hp. rewrite insertDEntriesToHistory_plain by exact Hplain.
  rewrite In_walk. split.
  - intros [H|(j & Hj & H)].
    + exfalso. apply plain_unflagged in Hplain. rewrite Forall_forall in Hplain.
      apply list_elem_of_In, Hplain in H. discriminate H.
    + apply In_group in H. destruct H as (e' & _ & _ & Hk & Heq).
      assert (Hd : d_depth e = d_depth e').
      { change (h_depth (position4Turn e) = h_depth (position4Turn e')).
        rewrite Heq. reflexivity. }
      unfold depthKey in *. rewrite Hd, Hk. lia.
  - intros Hr. right.
    exists (Z.to_nat (effectiveBaseIndex history baseMessage - depthKey e)).
    split; [lia|].
    rewrite group_default. unfold groupOf. apply in_map, List.filter_In. split.
    + apply List.filter_In. split; assumption.
    + apply Z.eqb_eq. lia.
Qed.

Lemma position4_entry_emitted_iff_distance_matches_witness :
  In (position4Turn Sample.depth1)
     (insertDEntriesToHistory [Sample.h0; Sample.h1; Sample.h2]
        [Sample.depth1] "h2")
  <-> 0 <= effectiveBaseIndex [Sample.h0; Sample.h1; Sample.h2] "h2"
           - depthKey Sample.depth1
        < Z.of_nat (length [Sample.h0; Sample.h1; Sample.h2]).
Proof.
  apply (position4_entry_emitted_iff_distance_matches
           [Sample.h0; Sample.h1; Sample.h2] [Sample.depth1] "h2" Sample.depth1).
  - repeat constructor.
  - left. reflexivity.
  - reflexivity.
Defined.

(** X7: on a history of plain turns [l1 ++ m :: l2], the group filed under
    the distance of [m] from the reference index is emitted, whole and in
    order, immediately before [m]; what precedes it holds the turns of [l1]
    and what follows [m] holds the turns of [l2], in their order, together
    with injected turns only. *)
Theorem depth_group_placed_before_its_turn l1 m l2 ds baseMessage :
  Forall plainTurn (l1 ++ m :: l2) ->
  exists before after,
    insertDEntriesToHistory (l1 ++ m :: l2) ds baseMessage
    = before
      ++ default [] (position4Entries ds
                       !! (effectiveBaseIndex (l1 ++ m :: l2) baseMessage
                           - Z.of_nat (length l1)))
      ++ m :: after /\
    stripDEntries before = l1 /\
    stripDEntries after = l2.
Proof.
  intros Hplain. rewrite insertDEntriesToHistory_plain by exact Hplain.
  set (base := effectiveBaseIndex (l1 ++ m :: l2) baseMessage).
  apply plain_unflagged in Hplain. apply Forall_app in Hplain.
  destruct Hplain as [H1 H2]. apply Forall_cons in H2. destruct H2 as [_ H2].
  exists (walk (position4Entries ds) base 0 l1).
  exists ((if 0 + Z.of_nat (length l1) =? base
           then default [] (position4Entries ds !! 0) else [])
          ++ walk (position4Entries ds) base (0 + Z.of_nat (length l1) + 1) l2).
  split; [|split].
  - rewrite walk_app. cbn [walk]. unfold emitAt.
    rewrite Z.add_0_l, <- !app_assoc. reflexivity.
  - rewrite strip_walk. apply strip_unflagged, H1.
  - rewrite strip_app, strip_walk.
    destruct (_ =? base); [rewrite strip_group|]; apply strip_unflagged, H2.
Qed.

Lemma depth_group_placed_before_its_turn_witness :
  exists before after,
    insertDEntriesToHistory ([Sample.h0] ++ Sample.h1 :: [Sample.h2])
      [Sample.depth1] "h2"
    = before
      ++ default [] (position4Entries [Sample.depth1]
                       !! (effectiveBaseIndex ([Sample.h0] ++ Sample.h1 :: [Sample.h2]) "h2"
                           - Z.of_nat (length [Sample.h0])))
      ++ Sample.h1 :: after /\
    stripDEntries before = [Sample.h0] /\
    stripDEntries after = [Sample.h2].
Proof.
  apply (depth_group_placed_before_its_turn
           [Sample.h0] Sample.h1 [Sample.h2] [Sample.depth1] "h2").
  repeat constructor.
Defined.

(** ** What the two splice loops leave *)

Lemma splice_insert_nat {A} (n : nat) (x : A) l :
  (n <= length l)%nat ->
  JS.splice_insert (Z.of_nat n) x l = take n l ++ x :: drop n l.
Proof.
  intros Hn. unfold JS.splice_insert.
  assert (E : (Z.of_nat n <? 0) = false) by (apply Z.ltb_ge; lia).
  rewrite E.
  replace (Z.to_nat (Z.min (Z.of_nat n) (Z.of_nat (length l)))) with n by lia.
  reflexivity.
Qed.

Lemma take_succ_app {A} (pre : list A) y tl n :
  n = length pre -> take (S n) (pre ++ y :: tl) = pre ++ [y].
Proof.
  intros ->. change (pre ++ y :: tl) with (pre ++ [y] ++ tl).
  rewrite app_assoc. apply take_app_length'. rewrite length_app. simpl. lia.
Qed.

Lemma drop_succ_app {A} (pre : list A) y tl n :
  n = length pre -> drop (S n) (pre ++ y :: tl) = tl.
Proof.
  intros ->. change (pre ++ y :: tl) with (pre ++ [y] ++ tl).
  rewrite app_assoc. apply drop_app_length'. rewrite length_app. simpl. lia.
Qed.

Lemma fold_splice_insert n xs : forall fh : list HistoryMsg,
  (n <= length fh)%nat ->
  fold_left (fun fh item => JS.splice_insert (Z.of_nat n) item fh) xs fh
  = take n fh ++ rev xs ++ drop n fh.
Proof.
  induction xs as [|x xs IH]; intros fh Hn; cbn [fold_left rev].
  - rewrite app_nil_l, take_drop. reflexivity.
  - rewrite splice_insert_nat by exact Hn.
    assert (Hl : length (take n fh) = n) by (rewrite length_take; lia).
    rewrite IH by (rewrite length_app, Hl; simpl; lia).
    rewrite take_app_length' by (symmetry; exact Hl).
    rewrite drop_app_length' by (symmetry; exact Hl).
    rewrite <- !app_assoc. reflexivity.
Qed.

Lemma insertBeforeLoop_spec n items fh :
  (n <= length fh)%nat ->
  insertBeforeLoop (Z.of_nat n) items fh = take n fh ++ items ++ drop n fh.
Proof.
  intros Hn. unfold insertBeforeLoop.
  rewrite fold_splice_insert by exact Hn. rewrite rev_involutive. reflexivity.
Qed.

Lemma insertAfterLoop_spec n items : forall i fh,
  (n + 1 + i <= length fh)%nat ->
  insertAfterLoop (Z.of_nat n) (Z.of_nat i) items fh
  = take (n + 1 + i) fh ++ items ++ drop (n + 1 + i) fh.
Proof.
  induction items as [|x items IH]; intros i fh Hn; cbn [insertAfterLoop].
  - rewrite app_nil_l, take_drop. reflexivity.
  - replace (Z.of_nat n + 1 + Z.of_nat i) with (Z.of_nat (n + 1 + i)) by lia.
    rewrite splice_insert_nat by exact Hn.
    replace (Z.of_nat i + 1) with (Z.of_nat (S i)) by lia.
    assert (Hl : length (take (n + 1 + i) fh) = (n + 1 + i)%nat)
      by (rewrite length_take; lia).
    rewrite IH by (rewrite length_app, Hl; simpl; lia).
    replace (n + 1 + S i)%nat with (S (n + 1 + i)) by lia.
    rewrite take_succ_app by (symmetry; exact Hl).
    rewrite drop_succ_app by (symmetry; exact Hl).
    rewrite <- !app_assoc. reflexivity.
Qed.

(** X8: what step 5.2 returns when the first anchor is at [pre ++ anchor ::
    post].  Without an entry of position 2, the turns of position 3 follow
    the anchor, in order.  With one, the turns of position 2 precede the
    anchor in order, and the turns of position 3 are inserted right after
    the first of them, the index of the anchor not being updated after the
    first loop. *)
Theorem anchorPass_result others pre anchor post :
  forallb (fun m => negb (h_is_author_note m)) pre = true ->
  h_is_author_note anchor = true ->
  anchorPass others (pre ++ anchor :: post) =
  match List.filter (hasPosition 2) others with
  | [] => pre ++ anchor :: List.filter (hasPosition 3) others ++ post
  | first :: rest =>
      pre ++ first :: List.filter (hasPosition 3) others ++ rest ++ anchor :: post
  end.
Proof.
  intros Hpre Hanchor. unfold anchorPass.
  rewrite (findIndex_first h_is_author_note pre anchor post Hpre Hanchor).
  assert (E : (Z.of_nat (length pre) =? -1) = false) by (apply Z.eqb_neq; lia).
  rewrite E. cbn [negb].
  rewrite insertBeforeLoop_spec by (rewrite length_app; lia).
  rewrite take_app_length, drop_app_length.
  change 0 with (Z.of_nat 0).
  rewrite insertAfterLoop_spec
    by (rewrite !length_app; cbn [length]; lia).
  replace (length pre + 1 + 0)%nat with (S (length pre)) by lia.
  destruct (List.filter (hasPosition 2) others) as [|first rest].
  - cbn [app]. rewrite take_succ_app, drop_succ_app by reflexivity.
    rewrite <- app_assoc. reflexivity.
  - cbn [app]. rewrite take_succ_app, drop_succ_app by reflexivity.
    rewrite <- !app_assoc. reflexivity.
Qed.

Lemma anchorPass_result_witness :
  anchorPass (otherPositionEntries [Sample.pos3; Sample.pos3])
             ([Sample.h0] ++ Sample.note :: [Sample.h2])
  = [Sample.h0; Sample.note; otherPositionTurn Sample.pos3;
     otherPositionTurn Sample.pos3; Sample.h2].
Proof.
  apply (anchorPass_result (otherPositionEntries [Sample.pos3; Sample.pos3])
           [Sample.h0] Sample.note [Sample.h2]); reflexivity.
Defined.

(** ** The shape of the output of buildPrompt *)

Lemma fold_frameworkStep_index fw : forall ms idx,
  snd (fold_left frameworkStep fw (ms, idx)) =
  match lastContainerIndex fw with
  | Some i => Z.of_nat (length ms + i)
  | None => idx
  end.
Proof.
  induction fw as [|e fw IH]; intros ms idx; [reflexivity|].
  cbn [fold_left lastContainerIndex]. rewrite frameworkStep_eq.
  destruct (isContainerEntry e); rewrite IH;
    destruct (lastContainerIndex fw) as [i|];
    rewrite ?length_app; cbn [length]; try reflexivity; f_equal; lia.
Qed.

Lemma lastContainerIndex_None fw :
  lastContainerIndex fw = None <-> countContainerEntries fw = 0%nat.
Proof.
  unfold countContainerEntries.
  induction fw as [|e fw IH]; [split; reflexivity|].
  cbn [lastContainerIndex List.filter].
  destruct (lastContainerIndex fw) as [i|].
  - split; [discriminate|]. intros H.
    destruct (isContainerEntry e); cbn [length] in H; [lia|].
    apply IH in H. discriminate H.
  - destruct (isContainerEntry e); cbn [length]; [split; [discriminate|lia]|].
    split; intros _; [apply IH|]; reflexivity.
Qed.

Lemma lastContainerIndex_Some fw j :
  lastContainerIndex fw = Some j ->
  (exists e, fw !! j = Some e /\ isContainerEntry e = true) /\
  (forall k e, (j < k)%nat -> fw !! k = Some e -> isContainerEntry e = false).
Proof.
  revert j. induction fw as [|e fw IH]; intros j H; [discriminate|].
  cbn [lastContainerIndex] in H.
  destruct (lastContainerIndex fw) as [i|] eqn:Hl.
  - injection H as <-. destruct (IH i eq_refl) as [(e' & He' & Hc) Hafter].
    split; [exists e'; split; assumption|].
    intros k e0 Hk Hlook. destruct k as [|k]; [lia|].
    apply (Hafter k e0); [lia | exact Hlook].
  - destruct (isContainerEntry e) eqn:He; [|discriminate]. injection H as <-.
    split; [exists e; split; [reflexivity | exact He]|].
    intros k e0 Hk Hlook. destruct k as [|k]; [lia|]. cbn in Hlook.
    apply lastContainerIndex_None in Hl. unfold countContainerEntries in Hl.
    apply list_elem_of_lookup_2, list_elem_of_In in Hlook.
    destruct (isContainerEntry e0) eqn:E0; [|reflexivity].
    assert (Hin : In e0 (List.filter isContainerEntry fw))
      by (apply List.filter_In; split; assumption).
    destruct (List.filter isContainerEntry fw); [destruct Hin | discriminate Hl].
Qed.

(** The output is the shell, with the turns stored in the block at the slot
    index when there is one. *)
Lemma buildPrompt_structure options :
  buildPrompt options =
  match slotIndex options with
  | Some i => alter (filledBlock (slotContent options)) i (shellOf options)
  | None => shellOf options
  end.
Proof.
  unfold buildPrompt, slotIndex, shellOf.
  pose proof (fold_frameworkStep (rFramework options) [] (-1)) as H.
  pose proof (fold_frameworkStep_index (rFramework options) [] (-1)) as Hi.
  pose proof (lastContainerIndex_None (rFramework options)) as Hn.
  cbn zeta in H.
  destruct (fold_left frameworkStep (rFramework options) ([], -1)) as [ms idx].
  cbn [fst snd] in H, Hi. destruct H as (Hms & _ & _). rewrite app_nil_l in Hms.
  subst ms. fold (hasConversation options).
  destruct (lastContainerIndex (rFramework options)) as [i|].
  - assert (Hc : (countContainerEntries (rFramework options) =? 0)%nat = false).
    { apply Nat.eqb_neq. intros E. apply Hn in E. discriminate E. }
    rewrite Hc. cbn [andb]. rewrite app_nil_r.
    assert (E : (idx =? -1) = false) by (apply Z.eqb_neq; cbn [length] in Hi; lia).
    rewrite E. cbn [andb negb]. rewrite E. cbn [negb].
    unfold setParts. rewrite Hi. cbn [length Nat.add]. rewrite Nat2Z.id. reflexivity.
  - assert (Hc : (countContainerEntries (rFramework options) =? 0)%nat = true).
    { apply Nat.eqb_eq, Hn. reflexivity. }
    rewrite Hc, Hi, Z.eqb_refl. cbn [andb].
    destruct (hasConversation options).
    + assert (E : (Z.of_nat (length (List.map frameworkBlock (rFramework options)))
                   =? -1) = false) by (apply Z.eqb_neq; lia).
      rewrite E. cbn [negb]. unfold setParts.
      rewrite Nat2Z.id, length_map. reflexivity.
    + rewrite Z.eqb_refl. cbn [negb]. rewrite app_nil_r. reflexivity.
Qed.

Lemma shellOf_lookup options i e :
  rFramework options !! i = Some e ->
  shellOf options !! i = Some (frameworkBlock e).
Proof.
  intros H. unfold shellOf. apply lookup_app_l_Some.
  change (List.map frameworkBlock (rFramework options))
    with (frameworkBlock <$> rFramework options).
  rewrite list_lookup_fmap, H. reflexivity.
Qed.

Lemma slotIndex_not_static options i e :
  rFramework options !! i = Some e -> isContainerEntry e = false ->
  slotIndex options <> Some i.
Proof.
  intros Hi He Hs. unfold slotIndex in Hs.
  destruct (lastContainerIndex (rFramework options)) as [j|] eqn:Hl.
  - injection Hs as ->. apply lastContainerIndex_Some in Hl.
    destruct Hl as [(e' & He' & Hc) _]. congruence.
  - destruct (hasConversation options); [|discriminate]. injection Hs as <-.
    apply lookup_lt_Some in Hi. lia.
Qed.

(** X9: [buildPrompt] looks at the entries of position 4 (or without
    position) only: the output is the one obtained from these alone.  The
    turns it hands to the insertion never carry the anchor mark, so the
    entries of position 2 and 3 are dropped like those of any other
    position. *)
Theorem buildPrompt_uses_position4_entries_only options :
  buildPrompt options =
  buildPrompt (withEntries (List.filter isPosition4 (JS.or_list (dEntries options) []))
                           options).
Proof.
  unfold buildPrompt, withEntries. cbn [rFramework dEntries chatHistory
    userMessage maxHistoryLength JS.or_list].
  destruct (fold_left frameworkStep (rFramework options) ([], -1)) as [ms idx].
  destruct (if (idx =? -1) && _ then _ else _) as [ms' idx'].
  destruct (negb (idx' =? -1)); [|reflexivity].
  rewrite !insertDEntriesToHistory_plain by apply normalizedHistory_plain.
  unfold position4Entries at 2.
  rewrite filter_filter_implied by (intros x Hx; exact Hx). reflexivity.
Qed.

(** X10: every framework entry without [isChatHistory] is found in the
    output at its own index, as a block holding its content as the single
    text fragment, whatever the entries, the history and the message. *)
Theorem static_entry_kept_at_its_index options i e :
  rFramework options !! i = Some e -> isContainerEntry e = false ->
  buildPrompt options !! i = Some (staticBlock e).
Proof.
  intros Hi He. rewrite buildPrompt_structure.
  pose proof (shellOf_lookup options i e Hi) as Hs.
  unfold frameworkBlock in Hs. rewrite He in Hs.
  pose proof (slotIndex_not_static options i e Hi He) as Hne.
  destruct (slotIndex options) as [j|]; [|exact Hs].
  rewrite list_lookup_alter_ne by congruence. exact Hs.
Qed.

Lemma static_entry_kept_at_its_index_witness :
  buildPrompt (Sample.chat [Sample.depth1]) !! 0%nat
  = Some (staticBlock (Sample.staticEntry "instructions")).
Proof.
  apply (static_entry_kept_at_its_index (Sample.chat [Sample.depth1]) 0%nat
           (Sample.staticEntry "instructions")); reflexivity.
Defined.

(** X11: when the framework flags several entries, each gives a container
    at its own index, and only the last one receives the conversation: the
    containers of the earlier ones stay empty. *)
Theorem only_last_container_is_filled options i j e :
  lastContainerIndex (rFramework options) = Some j ->
  rFramework options !! i = Some e -> isContainerEntry e = true ->
  buildPrompt options !! i =
  Some (if (i =? j)%nat
        then filledBlock (slotContent options) (containerBlock e)
        else containerBlock e).
Proof.
  intros Hj Hi He. rewrite buildPrompt_structure. unfold slotIndex. rewrite Hj.
  pose proof (shellOf_lookup options i e Hi) as Hs.
  unfold frameworkBlock in Hs. rewrite He in Hs.
  destruct (Nat.eqb_spec i j) as [->|Hne].
  - rewrite list_lookup_alter_eq, Hs. reflexivity.
  - rewrite list_lookup_alter_ne by congruence. exact Hs.
Qed.

Lemma only_last_container_is_filled_witness :
  buildPrompt Sample.twoContainers !! 0%nat
  = Some (containerBlock Sample.containerEntry).
Proof.
  apply (only_last_container_is_filled Sample.twoContainers 0%nat 2%nat
           Sample.containerEntry); reflexivity.
Defined.

Lemma slot_block_empty options j :
  slotIndex options = Some j ->
  exists m, shellOf options !! j = Some m /\ m_parts m = [].
Proof.
  unfold slotIndex. intros H.
  destruct (lastContainerIndex (rFramework options)) as [i|] eqn:Hl.
  - injection H as ->. apply lastContainerIndex_Some in Hl.
    destruct Hl as [(e & He & Hc) _].
    exists (frameworkBlock e). split; [apply shellOf_lookup, He|].
    unfold frameworkBlock. rewrite Hc. reflexivity.
  - destruct (hasConversation options) eqn:Hc; [|discriminate]. injection H as <-.
    exists defaultContainer. split; [|reflexivity].
    unfold shellOf. apply lastContainerIndex_None in Hl. rewrite Hl, Hc. cbn [Nat.eqb andb].
    apply list_lookup_middle. rewrite length_map. reflexivity.
Qed.

(** X12: when the output has a filled container, its [parts] are the turns
    returned by the insertion, and removing the injected turns from them
    gives the trimmed, converted history with the new message: no turn of
    the conversation is lost, duplicated or moved. *)
Theorem filled_container_holds_normalized_history options j :
  slotIndex options = Some j ->
  exists m turns,
    buildPrompt options !! j = Some m /\
    m_parts m = List.map HistoryPart turns /\
    turns = insertDEntriesToHistory
              (normalizedHistory (JS.or_list (chatHistory options) [])
                 (userMessage options) (default 15 (maxHistoryLength options)))
              (JS.or_list (dEntries options) [])
              (JS.or_str (userMessage options) EmptyString) /\
    stripDEntries turns
    = normalizedHistory (JS.or_list (chatHistory options) [])
        (userMessage options) (default 15 (maxHistoryLength options)).
Proof.
  intros Hj. destruct (slot_block_empty options j Hj) as (m0 & Hm0 & _).
  exists (filledBlock (slotContent options) m0), (slotContent options).
  split; [|split; [reflexivity|split; [reflexivity|]]].
  - rewrite buildPrompt_structure, Hj, list_lookup_alter_eq, Hm0. reflexivity.
  - unfold slotContent. rewrite strip_insertDEntriesToHistory.
    apply strip_unflagged, plain_unflagged, normalizedHistory_plain.
Qed.

Lemma filled_container_holds_normalized_history_witness :
  exists m turns,
    buildPrompt (Sample.chat [Sample.depth1]) !! 1%nat = Some m /\
    m_parts m = List.map HistoryPart turns /\
    turns = insertDEntriesToHistory
              (normalizedHistory
                 (JS.or_list (chatHistory (Sample.chat [Sample.depth1])) [])
                 (userMessage (Sample.chat [Sample.depth1]))
                 (default 15 (maxHistoryLength (Sample.chat [Sample.depth1]))))
              (JS.or_list (dEntries (Sample.chat [Sample.depth1])) [])
              (JS.or_str (userMessage (Sample.chat [Sample.depth1])) EmptyString) /\
    stripDEntries turns
    = normalizedHistory (JS.or_list (chatHistory (Sample.chat [Sample.depth1])) [])
        (userMessage (Sample.chat [Sample.depth1]))
        (default 15 (maxHistoryLength (Sample.chat [Sample.depth1]))).
Proof.
  apply (filled_container_holds_normalized_history (Sample.chat [Sample.depth1]) 1%nat).
  reflexivity.
Defined.





(** ** The text of an assembled sequence *)





(** ** Stale injected turns *)

(** X15: with at least one entry, of whatever position, the turns flagged
    [is_d_entry] that the history already holds are discarded: the result
    is the one obtained from the history without them.  With no entry the
    history is returned as it is, flagged turns included. *)
Theorem stale_injected_turns_discarded history ds baseMessage :
  ds <> [] ->
  insertDEntriesToHistory history ds baseMessage
  = insertDEntriesToHistory (stripDEntries history) ds baseMessage /\
  insertDEntriesToHistory history [] baseMessage = history.
Proof.
  intros Hds. split; [|reflexivity].
  destruct ds as [|d ds]; [congruence|].
  destruct history as [|m h]; [reflexivity|].
  unfold insertDEntriesToHistory at 1. cbn [length Nat.eqb orb].
  fold (stripDEntries (m :: h)).
  destruct (stripDEntries (m :: h)) as [|x r] eqn:Hs; [reflexivity|].
  unfold insertDEntriesToHistory. cbn [length Nat.eqb orb].
  fold (stripDEntries (x :: r)). rewrite <- Hs, strip_idem. reflexivity.
Qed.

Lemma stale_injected_turns_discarded_witness :
  insertDEntriesToHistory [Sample.h0; position4Turn Sample.depth0; Sample.h1]
    [Sample.pos7] "absent"
  = insertDEntriesToHistory
      (stripDEntries [Sample.h0; position4Turn Sample.depth0; Sample.h1])
      [Sample.pos7] "absent" /\
  insertDEntriesToHistory [Sample.h0; position4Turn Sample.depth0; Sample.h1]
    [] "absent"
  = [Sample.h0; position4Turn Sample.depth0; Sample.h1].
Proof.
  apply (stale_injected_turns_discarded
           [Sample.h0; position4Turn Sample.depth0; Sample.h1] [Sample.pos7] "absent").
  discriminate.
Defined.

(** ** The factories *)

Lemma or_str_idem o d : JS.or_str (Some (JS.or_str o d)) d = JS.or_str o d.
Proof.
  unfold JS.or_str. destruct o as [s|].
  - destruct (String.eqb s EmptyString) eqn:E; [|rewrite E; reflexivity].
    destruct (String.eqb d EmptyString); reflexivity.
  - destruct (String.eqb d EmptyString); reflexivity.
Qed.

Lemma or_num_idem o d : JS.or_num (Some (JS.or_num o d)) d = JS.or_num o d.
Proof.
  unfold JS.or_num. destruct o as [n|].
  - destruct (n =? 0) eqn:E; [|rewrite E; reflexivity].
    destruct (d =? 0); reflexivity.
  - destruct (d =? 0); reflexivity.
Qed.

(** X16: [createDEntry] is idempotent: applied to an entry it has built, it
    returns that entry. *)
Theorem createDEntry_idempotent options :
  createDEntry (createDEntry options) = createDEntry options.
Proof.
  unfold createDEntry. cbn [d_name d_content d_role d_position d_depth d_constant
    d_key d_identifier JS.or_list].
  rewrite or_str_idem, !or_num_idem.
  destruct (d_constant options) as [[|]|]; reflexivity.
Qed.



Lemma isContainerEntry_createRFrameworkEntry e :
  isContainerEntry (createRFrameworkEntry e) = isContainerEntry e.
Proof.
  unfold isContainerEntry, createRFrameworkEntry. cbn [r_isChatHistory].
  destruct (r_isChatHistory e) as [[|]|]; reflexivity.
Qed.

Lemma frameworkBlock_createRFrameworkEntry e :
  roleGivenIfContainer e ->
  frameworkBlock (createRFrameworkEntry e) = frameworkBlock e.
Proof.
  intros H. unfold frameworkBlock. rewrite isContainerEntry_createRFrameworkEntry.
  destruct (isContainerEntry e) eqn:He.
  - specialize (H He). unfold JS.truthy_str in H.
    unfold containerBlock, createRFrameworkEntry. cbn [r_name r_role r_identifier].
    f_equal. destruct (r_role e) as [s|]; [|discriminate H].
    unfold JS.or_str. destruct (String.eqb s EmptyString) eqn:E; [discriminate H|].
    rewrite E. reflexivity.
  - unfold staticBlock, createRFrameworkEntry. cbn [r_name r_role r_content r_identifier].
    rewrite or_str_idem. reflexivity.
Qed.

Lemma lastContainerIndex_createRFrameworkEntry fw :
  lastContainerIndex (List.map createRFrameworkEntry fw) = lastContainerIndex fw.
Proof.
  induction fw as [|e fw IH]; [reflexivity|].
  cbn [List.map lastContainerIndex].
  rewrite IH, isContainerEntry_createRFrameworkEntry. reflexivity.
Qed.

Lemma countContainerEntries_createRFrameworkEntry fw :
  countContainerEntries (List.map createRFrameworkEntry fw) = countContainerEntries fw.
Proof.
  unfold countContainerEntries.
  induction fw as [|e fw IH]; [reflexivity|].
  cbn [List.map List.filter]. rewrite isContainerEntry_createRFrameworkEntry.
  destruct (isContainerEntry e); cbn [length]; rewrite IH; reflexivity.
Qed.

(** X18: passing the framework entries through [createRFrameworkEntry]
    before assembling changes nothing in the output, provided every
    container entry has a role: for a container entry without role the
    factory fills in "user", where [buildPrompt] alone would use "system". *)
Theorem buildPrompt_after_createRFrameworkEntry options :
  Forall roleGivenIfContainer (rFramework options) ->
  buildPrompt (withFramework (List.map createRFrameworkEntry (rFramework options)) options)
  = buildPrompt options.
Proof.
  intros H. rewrite !buildPrompt_structure.
  unfold slotIndex, shellOf, withFramework, hasConversation, slotContent.
  cbn [rFramework chatHistory userMessage dEntries maxHistoryLength].
  rewrite lastContainerIndex_createRFrameworkEntry,
          countContainerEntries_createRFrameworkEntry, length_map.
  assert (E : List.map frameworkBlock (List.map createRFrameworkEntry (rFramework options))
              = List.map frameworkBlock (rFramework options)).
  { induction H as [|e fw He _ IH]; [reflexivity|].
    cbn [List.map]. rewrite IH, (frameworkBlock_createRFrameworkEntry e He). reflexivity. }
  rewrite E. reflexivity.
Qed.

Lemma buildPrompt_after_createRFrameworkEntry_witness :
  buildPrompt
    (withFramework
       (List.map createRFrameworkEntry (rFramework (Sample.chat [Sample.depth1])))
       (Sample.chat [Sample.depth1]))
  = buildPrompt (Sample.chat [Sample.depth1]).
Proof.
  apply (buildPrompt_after_createRFrameworkEntry (Sample.chat [Sample.depth1])).
  cbn. constructor; [intros H; discriminate H|].
  constructor; [intros _; reflexivity|]. constructor.
Defined.

Lemma lastContainerIndex_snoc fw c :
  isContainerEntry c = true -> lastContainerIndex (fw ++ [c]) = Some (length fw).
Proof.
  intros Hc. induction fw as [|e fw IH]; cbn [app lastContainerIndex length].
  - rewrite Hc. reflexivity.
  - rewrite IH. reflexivity.
Qed.

(** X19: when there is a turn of history or a non-empty message, declaring
    the container explicitly, as the last framework entry built by
    [createChatHistoryContainer] with its default identifier, gives the same
    output as leaving it to [buildPrompt] to append one. *)
Theorem explicit_default_container_same_as_appended options :
  countContainerEntries (rFramework options) = 0%nat ->
  hasConversation options = true ->
  buildPrompt (withFramework (rFramework options ++ [createChatHistoryContainer None])
                             options)
  = buildPrompt options.
Proof.
  intros Hc Hconv. rewrite !buildPrompt_structure.
  unfold slotIndex, shellOf, withFramework, slotContent.
  cbn [rFramework chatHistory userMessage dEntries maxHistoryLength].
  rewrite lastContainerIndex_snoc by reflexivity.
  rewrite (proj2 (lastContainerIndex_None (rFramework options)) Hc), Hconv, Hc.
  assert (Hn : (countContainerEntries (rFramework options ++ [createChatHistoryContainer None])
                =? 0)%nat = false).
  { apply Nat.eqb_neq. unfold countContainerEntries in *.
    rewrite List.filter_app, length_app, Hc. cbn. lia. }
  rewrite Hn. cbn [Nat.eqb andb]. rewrite map_app, app_nil_r. reflexivity.
Qed.

Lemma explicit_default_container_same_as_appended_witness :
  buildPrompt
    (withFramework ([Sample.staticEntry "instructions"] ++ [createChatHistoryContainer None])
       (withFramework [Sample.staticEntry "instructions"] (Sample.chat [Sample.depth1])))
  = buildPrompt (withFramework [Sample.staticEntry "instructions"]
                               (Sample.chat [Sample.depth1])).
Proof.
  apply (explicit_default_container_same_as_appended
           (withFramework [Sample.staticEntry "instructions"]
                          (Sample.chat [Sample.depth1]))); reflexivity.
Defined.

(** ** The converted history *)

(** X20: every turn returned by [processHistory] comes from a raw turn that
    is not flagged [is_d_entry], keeps its timestamp, carries neither flag,
    and has role "model" when the raw role is "assistant" or "model", and
    role "user" for every other raw role. *)
Theorem processHistory_turns l t :
  In t (processHistory l) ->
  h_is_d_entry t = false /\ h_is_author_note t = false /\
  exists m, In m l /\ c_is_d_entry m = false /\
            h_timestamp t = c_timestamp m /\
            ((h_role t = "model" /\ (c_role m = "assistant" \/ c_role m = "model")) \/
             (h_role t = "user" /\ c_role m <> "assistant" /\ c_role m <> "model")).
Proof.
  unfold processHistory. induction l as [|m l IH]; [intros []|].
  cbn [List.map JS.filter_Boolean]. unfold processHistory_step at 1.
  destruct (c_is_d_entry m) eqn:Hd.
  - intros H. destruct (IH H) as (H1 & H2 & m' & Hin & Hrest).
    split; [exact H1|]. split; [exact H2|]. exists m'. split; [right; exact Hin | exact Hrest].
  - intros [<-|H].
    + split; [reflexivity|]. split; [reflexivity|].
      exists m. split; [left; reflexivity|]. split; [exact Hd|]. split; [reflexivity|].
      cbn [h_role].
      destruct (String.eqb_spec (c_role m) "assistant") as [Ea|Ea]; cbn [orb].
      * left. split; [reflexivity | left; exact Ea].
      * destruct (String.eqb_spec (c_role m) "model") as [Em|Em].
        -- left. split; [reflexivity | right; exact Em].
        -- right. split; [reflexivity|]. split; assumption.
    + destruct (IH H) as (H1 & H2 & m' & Hin & Hrest).
      split; [exact H1|]. split; [exact H2|]. exists m'.
      split; [right; exact Hin | exact Hrest].
Qed.

Lemma processHistory_turns_witness :
  h_is_d_entry (Sample.modelTurn "b") = false /\
  h_is_author_note (Sample.modelTurn "b") = false /\
  exists m, In m [Sample.rawTurn "system" "a" true; Sample.rawTurn "assistant" "b" false] /\
            c_is_d_entry m = false /\
            h_timestamp (Sample.modelTurn "b") = c_timestamp m /\
            ((h_role (Sample.modelTurn "b") = "model"
              /\ (c_role m = "assistant" \/ c_role m = "model")) \/
             (h_role (Sample.modelTurn "b") = "user"
              /\ c_role m <> "assistant" /\ c_role m <> "model")).
Proof.
  apply (processHistory_turns
           [Sample.rawTurn "system" "a" true; Sample.rawTurn "assistant" "b" false]
           (Sample.modelTurn "b")).
  left. reflexivity.
Defined.

(** X21: when a non-empty new message is given, the history handed to the
    insertion ends with the user turn of that message, and this turn is the
    reference: the reference index is the last index. *)
Theorem new_message_is_the_reference chatHistory (s : string) W :
  s <> EmptyString ->
  normalizedHistory chatHistory (Some s) W
  = processHistory (JS.slice_from (- W) chatHistory) ++ [userTurn s] /\
  effectiveBaseIndex (normalizedHistory chatHistory (Some s) W) s
  = Z.of_nat (length (normalizedHistory chatHistory (Some s) W)) - 1.
Proof.
  intros Hs.
  assert (E : String.eqb s EmptyString = false) by (apply String.eqb_neq; exact Hs).
  assert (Hn : normalizedHistory chatHistory (Some s) W
               = processHistory (JS.slice_from (- W) chatHistory) ++ [userTurn s]).
  { unfold normalizedHistory, JS.truthy_str, JS.or_str. rewrite E. reflexivity. }
  split; [exact Hn|]. rewrite Hn.
  rewrite effectiveBaseIndex_last_match.
  - rewrite length_app. cbn [length]. lia.
  - unfold isBaseMessage. cbn. apply String.eqb_refl.
  - reflexivity.
Qed.

Lemma new_message_is_the_reference_witness :
  normalizedHistory [Sample.rawTurn "user" "a" false] (Some "new") 15
  = processHistory (JS.slice_from (- 15) [Sample.rawTurn "user" "a" false])
    ++ [userTurn "new"] /\
  effectiveBaseIndex (normalizedHistory [Sample.rawTurn "user" "a" false] (Some "new") 15)
    "new"
  = Z.of_nat (length (normalizedHistory [Sample.rawTurn "user" "a" false] (Some "new") 15))
    - 1.
Proof.
  apply (new_message_is_the_reference [Sample.rawTurn "user" "a" false] "new" 15).
  discriminate.
Defined.

(** X22: a window that is not positive does not empty the history: with a
    window of 0 the whole raw history is kept, and with a window of [-n] the
    first [n] raw turns are dropped and the rest kept. *)
Theorem nonpositive_window_keeps_history chatHistory userMessage W :
  W <= 0 ->
  normalizedHistory chatHistory userMessage W
  = processHistory (drop (Z.to_nat (- W)) chatHistory)
    ++ (if JS.truthy_str userMessage
        then [userTurn (JS.or_str userMessage EmptyString)] else []).
Proof.
  intros HW. unfold normalizedHistory, JS.slice_from.
  assert (E : (- W <? 0) = false) by (apply Z.ltb_ge; lia).
  rewrite E.
  assert (Hd : drop (Z.to_nat (Z.min (- W) (Z.of_nat (length chatHistory)))) chatHistory
               = drop (Z.to_nat (- W)) chatHistory).
  { destruct (Z.le_gt_cases (- W) (Z.of_nat (length chatHistory))) as [Hle|Hgt].
    - rewrite Z.min_l by exact Hle. reflexivity.
    - rewrite Z.min_r by lia. rewrite Nat2Z.id, !drop_ge by lia. reflexivity. }
  rewrite Hd. destruct (JS.truthy_str userMessage); [reflexivity|].
  rewrite app_nil_r. reflexivity.
Qed.

Lemma nonpositive_window_keeps_history_witness :
  normalizedHistory [Sample.rawTurn "user" "a" false; Sample.rawTurn "assistant" "b" false]
    None 0
  = processHistory
      (drop (Z.to_nat (- 0))
         [Sample.rawTurn "user" "a" false; Sample.rawTurn "assistant" "b" false])
    ++ (if JS.truthy_str None
        then [userTurn (JS.or_str None EmptyString)] else []).
Proof.
  apply (nonpositive_window_keeps_history
           [Sample.rawTurn "user" "a" false; Sample.rawTurn "assistant" "b" false] None 0).
  lia.
Defined.
